(** * The carbon-clickhouse test fixture of graphite-clickhouse

    A shallow embedding of the [CarbonClickhouse] lifecycle manager
    ([Start], [Stop], [Delete], [Cleanup], [Address], [Container]).

    The Go methods mutate the receiver and talk to the operating system
    (port allocator, temporary directories, template files, the container
    runtime).  Here every method is a function from the receiver and the
    state of the outside world to its results, the updated receiver and the
    updated world.  The outside world keeps the directories and files on
    disk and a log of every external call, newest first.  What the
    operating system answers is given by a record of oracles. *)

From Stdlib Require Import String Ascii List Bool Arith ZArith Lia.
Import ListNotations.
Open Scope string_scope.

(** ** Data *)

(** A Go [error] is represented by its message; [nil] is [None]. *)
Definition error := string.

Definition CchContainerName : string := "carbon-clickhouse-gch-test".

Record CarbonClickhouse : Type := mkCch {
  Version : string;
  Docker : string;
  DockerImage : string;
  Template : string;
  TZ : string;
  address : string;
  container : string;
  storeDir : string
}.

Definition set_Docker (v : string) (c : CarbonClickhouse) : CarbonClickhouse :=
  mkCch (Version c) v (DockerImage c) (Template c) (TZ c)
        (address c) (container c) (storeDir c).

Definition set_DockerImage (v : string) (c : CarbonClickhouse) : CarbonClickhouse :=
  mkCch (Version c) (Docker c) v (Template c) (TZ c)
        (address c) (container c) (storeDir c).

Definition set_address (v : string) (c : CarbonClickhouse) : CarbonClickhouse :=
  mkCch (Version c) (Docker c) (DockerImage c) (Template c) (TZ c)
        v (container c) (storeDir c).

Definition set_container (v : string) (c : CarbonClickhouse) : CarbonClickhouse :=
  mkCch (Version c) (Docker c) (DockerImage c) (Template c) (TZ c)
        (address c) v (storeDir c).

Definition set_storeDir (v : string) (c : CarbonClickhouse) : CarbonClickhouse :=
  mkCch (Version c) (Docker c) (DockerImage c) (Template c) (TZ c)
        (address c) (container c) v.

(** The instance as the configuration decoder leaves it: the three
    unexported fields carry the tag [toml:"-"] and hold Go's zero value. *)
Definition configured (version docker image template tz : string) : CarbonClickhouse :=
  mkCch version docker image template tz "" "" "".

(** The anonymous struct handed to the template. *)
Record Param : Type := mkParam {
  CLICKHOUSE_URL : string;
  CCH_ADDR : string
}.

(** ** The outside world *)

(** One entry per external call, with what the call answered. *)
Inductive Event : Type :=
| EvFreePort (name : string) (addr : string) (err : option error)
| EvTempDir (dir pattern : string) (res : string) (err : option error)
| EvParseFiles (name file : string) (err : option error)
| EvOpenFile (file : string) (err : option error)
| EvExecuteTemplate (file name : string) (param : Param) (text : string)
                    (err : option error)
| EvExec (bin : string) (args : list string) (out : string) (err : option error)
| EvRemoveAll (dir : string) (err : option error).

Record World : Type := mkWorld {
  dirs : list string;
  files : list (string * string);
  trace : list Event
}.

Definition log (e : Event) (w : World) : World :=
  mkWorld (dirs w) (files w) (e :: trace w).

Definition with_dirs (ds : list string) (w : World) : World :=
  mkWorld ds (files w) (trace w).

Definition with_files (fs : list (string * string)) (w : World) : World :=
  mkWorld (dirs w) fs (trace w).

Fixpoint lookup (k : string) (fs : list (string * string)) : option string :=
  match fs with
  | [] => None
  | (k', v) :: fs' => if String.eqb k k' then Some v else lookup k fs'
  end.

Fixpoint store (k v : string) (fs : list (string * string)) : list (string * string) :=
  match fs with
  | [] => [(k, v)]
  | (k', v') :: fs' =>
      if String.eqb k k' then (k, v) :: fs' else (k', v') :: store k v fs'
  end.

Fixpoint drop (n : nat) (s : string) : string :=
  match n, s with
  | O, _ => s
  | S n', EmptyString => EmptyString
  | S n', String _ s' => drop n' s'
  end.

(** Writing [text] at offset 0 of a file opened without [O_TRUNC]. *)
Definition overwrite (text old : string) : string :=
  text ++ drop (String.length text) old.

Definition mem (d : string) (ds : list string) : bool :=
  existsb (String.eqb d) ds.

Definition remove_dir (d : string) (ds : list string) : list string :=
  filter (fun x => negb (String.eqb d x)) ds.

Definition below (d : string) (file : string) : bool :=
  String.prefix (d ++ "/") file.

Arguments remove_dir : simpl never.
Arguments mem : simpl never.

(** The operating system: what each external call answers in a given state
    of the world.  [path.Join] and [filepath.Base] are library functions of
    strings only; templates are opaque values of type [tmpl]. *)
Record OS : Type := mkOS {
  tmpl : Type;
  os_free_port : string -> World -> string * option error;
  os_temp_dir : string -> string -> World -> error + string;
  os_parse_files : string -> string -> World -> error + tmpl;
  os_open_file : string -> World -> option error;
  os_execute : tmpl -> string -> Param -> string * option error;
  os_exec : string -> list string -> World -> string * option error;
  os_remove_all : string -> World -> option error;
  path_Join : string -> string -> string;
  filepath_Base : string -> string
}.

(** What [Start] relies on from [ioutil.TempDir]: the directory it creates
    did not exist before and has a non-empty name. *)
Definition temp_dir_ok (os : OS) : Prop :=
  forall dir pat w d,
    os_temp_dir os dir pat w = inr d -> d <> "" /\ mem d (dirs w) = false.

(** Modelled from the spec: what a successful [getFreeTCPPort] returns.  The
    function is not part of the sources at hand; the spec has it return "a
    free local address string" and has [Address()] return "a non-empty
    host:port string" after a successful [Start]. *)
Definition free_port_ok (os : OS) : Prop :=
  forall name w a, os_free_port os name w = (a, None) -> a <> "".

Section Fixture.

Variable os : OS.

(** ** External calls *)

(** Modelled from the spec: [getFreeTCPPort] is defined in a file of the
    repository that is not part of the sources at hand.  The spec calls it
    "an external primitive returning a free local address string given an
    optional preferred host; treated as infallible-or-error".  Both results
    are kept, as [Start] assigns the returned string before it looks at the
    error. *)
Definition getFreeTCPPort (name : string) (w : World)
  : (string * option error) * World :=
  let '(a, err) := os_free_port os name w in
  ((a, err), log (EvFreePort name a err) w).

(** [ioutil.TempDir]: the empty string and the error, or the name of the
    directory it created. *)
Definition ioutil_TempDir (dir pattern : string) (w : World)
  : (string * option error) * World :=
  match os_temp_dir os dir pattern w with
  | inl e => (("", Some e), log (EvTempDir dir pattern "" (Some e)) w)
  | inr d => ((d, None),
              log (EvTempDir dir pattern d None) (with_dirs (d :: dirs w) w))
  end.

(** [template.New(name).ParseFiles(file)]. *)
Definition template_ParseFiles (name file : string) (w : World)
  : (error + tmpl os) * World :=
  match os_parse_files os name file w with
  | inl e => (inl e, log (EvParseFiles name file (Some e)) w)
  | inr t => (inr t, log (EvParseFiles name file None) w)
  end.

(** [os.OpenFile(file, os.O_WRONLY|os.O_CREATE, 0644)]: the file is created
    when it is missing and its contents are kept when it is not.  The handle
    is the name of the file. *)
Definition os_OpenFile (file : string) (w : World) : option error * World :=
  match os_open_file os file w with
  | Some e => (Some e, log (EvOpenFile file (Some e)) w)
  | None =>
      let fs := match lookup file (files w) with
                | Some _ => files w
                | None => store file "" (files w)
                end in
      (None, log (EvOpenFile file None) (with_files fs w))
  end.

(** [tmpl.ExecuteTemplate(f, name, param)]: whatever text the engine
    produced, also when it stopped with an error, is written to [f]. *)
Definition ExecuteTemplate (t : tmpl os) (f name : string) (param : Param)
  (w : World) : option error * World :=
  let '(text, err) := os_execute os t name param in
  let old := match lookup f (files w) with Some s => s | None => "" end in
  (err, log (EvExecuteTemplate f name param text err)
            (with_files (store f (overwrite text old) (files w)) w)).

(** [exec.Command(bin, args...).CombinedOutput()]. *)
Definition CombinedOutput (bin : string) (args : list string) (w : World)
  : (string * option error) * World :=
  let '(out, err) := os_exec os bin args w in
  ((out, err), log (EvExec bin args out err) w).

(** [os.RemoveAll(dir)]: when it reports no error the directory and what is
    below it are gone. *)
Definition os_RemoveAll (dir : string) (w : World) : option error * World :=
  match os_remove_all os dir w with
  | Some e => (Some e, log (EvRemoveAll dir (Some e)) w)
  | None =>
      (None,
       log (EvRemoveAll dir None)
           (mkWorld (remove_dir dir (dirs w))
                    (filter (fun kv => negb (below dir (fst kv))) (files w))
                    (trace w)))
  end.

(** ** The methods *)

Definition Cleanup (c : CarbonClickhouse) (w : World) : CarbonClickhouse * World :=
  if negb (String.eqb (storeDir c) "") then
    let '(_, w) := os_RemoveAll (storeDir c) w in
    (set_storeDir "" c, w)
  else (c, w).

Definition Address (c : CarbonClickhouse) : string := address c.

Definition Container (c : CarbonClickhouse) : string := container c.

(** The two defaulting assignments at the head of [Start]. *)
Definition defaults (c : CarbonClickhouse) : CarbonClickhouse :=
  let c := if Nat.eqb (String.length (Docker c)) 0
           then set_Docker "docker" c else c in
  if Nat.eqb (String.length (DockerImage c)) 0
  then set_DockerImage "lomik/carbon-clickhouse" c else c.

Definition Result : Type := (option error * string) * CarbonClickhouse * World.

Definition Start (testDir clickhouseURL clickhouseContainer : string)
  (c : CarbonClickhouse) (w : World) : Result :=
  if Nat.eqb (String.length (Version c)) 0 then
    ((Some "version not set", ""), c, w)
  else
  let c := defaults c in
  let '((a, err), w) := getFreeTCPPort "" w in
  let c := set_address a c in
  match err with
  | Some e => ((Some e, ""), c, w)
  | None =>
  let c := set_container CchContainerName c in
  let '((d, err), w) := ioutil_TempDir "" "carbon-clickhouse" w in
  let c := set_storeDir d c in
  match err with
  | Some e => ((Some e, ""), c, w)
  | None =>
  let '((a, err), w) := getFreeTCPPort "" w in
  let c := set_address a c in
  match err with
  | Some e => let '(c, w) := Cleanup c w in ((Some e, ""), c, w)
  | None =>
  let name := filepath_Base os (Template c) in
  let tpl := path_Join os testDir (Template c) in
  match template_ParseFiles name tpl w with
  | (inl e, w) => let '(c, w) := Cleanup c w in ((Some e, ""), c, w)
  | (inr tpl_parsed, w) =>
  let param := mkParam clickhouseURL (address c) in
  let configFile := path_Join os (storeDir c) "carbon-clickhouse.conf" in
  match os_OpenFile configFile w with
  | (Some e, w) => let '(c, w) := Cleanup c w in ((Some e, ""), c, w)
  | (None, w) =>
  match ExecuteTemplate tpl_parsed configFile name param w with
  | (Some e, w) => let '(c, w) := Cleanup c w in ((Some e, ""), c, w)
  | (None, w) =>
  let cchStart := ["run"; "-d";
                   "--name"; container c;
                   "-p"; address c ++ ":2003";
                   "-v"; storeDir c ++ ":/etc/carbon-clickhouse";
                   "--link"; clickhouseContainer] in
  let cchStart := if negb (String.eqb (TZ c) "")
                  then List.app cchStart ["-e"; "TZ=" ++ TZ c] else cchStart in
  let cchStart := List.app cchStart [DockerImage c ++ ":" ++ Version c] in
  let '((out, err), w) := CombinedOutput (Docker c) cchStart w in
  ((err, out), c, w)
  end end end end end end.

Definition Delete (c : CarbonClickhouse) (w : World) : Result :=
  if Nat.eqb (String.length (container c)) 0 then ((None, ""), c, w)
  else
  let chDel := ["rm"; container c] in
  let '((out, err), w) := CombinedOutput (Docker c) chDel w in
  let c := match err with
           | None => set_container "" c
           | Some _ => c
           end in
  let '(c, w) := Cleanup c w in
  ((err, out), c, w).

Definition Stop (delete : bool) (c : CarbonClickhouse) (w : World) : Result :=
  if Nat.eqb (String.length (container c)) 0 then ((None, ""), c, w)
  else
  let chStop := ["stop"; container c] in
  let '((out, err), w) := CombinedOutput (Docker c) chStop w in
  match err with
  | None => if delete then Delete c w else ((err, out), c, w)
  | Some _ => ((err, out), c, w)
  end.

(** ** Sequences of calls *)

Inductive Op : Type :=
| OpStart (testDir clickhouseURL clickhouseContainer : string)
| OpStop (delete : bool)
| OpDelete
| OpCleanup.

Definition step (op : Op) (c : CarbonClickhouse) (w : World) : Result :=
  match op with
  | OpStart t u l => Start t u l c w
  | OpStop d => Stop d c w
  | OpDelete => Delete c w
  | OpCleanup => let '(c, w) := Cleanup c w in ((None, ""), c, w)
  end.

Fixpoint run (ops : list Op) (c : CarbonClickhouse) (w : World)
  : CarbonClickhouse * World :=
  match ops with
  | [] => (c, w)
  | op :: ops' => let '(_, c, w) := step op c w in run ops' c w
  end.

Definition is_nil (e : option error) : bool :=
  match e with None => true | Some _ => false end.

(** A [Start] on [c] in [w] gets past the check of the version and past its
    first port allocation. *)
Definition reserves (c : CarbonClickhouse) (w : World) : bool :=
  negb (Nat.eqb (String.length (Version c)) 0)
  && is_nil (snd (os_free_port os "" w)).

(** Whether the instance is named, told from what its calls returned: it
    becomes named by a [Start] that gets past the first port allocation, and
    stops being named when [Delete], or [Stop] asked to delete, returns no
    error. *)
Definition named_after (op : Op) (c : CarbonClickhouse) (w : World)
  (named : bool) : bool :=
  match op with
  | OpStart _ _ _ => named || reserves c w
  | OpStop true | OpDelete => named && negb (is_nil (fst (fst (fst (step op c w)))))
  | OpStop false | OpCleanup => named
  end.

Fixpoint named_by (ops : list Op) (c : CarbonClickhouse) (w : World)
  (named : bool) : bool :=
  match ops with
  | [] => named
  | op :: ops' =>
      let '(_, c', w') := step op c w in
      named_by ops' c' w' (named_after op c w named)
  end.

Definition is_start (op : Op) : bool :=
  match op with OpStart _ _ _ => true | _ => false end.

End Fixture.

(** ** Reading the log *)

(** The calls made between [w] and a later [w'], newest first. *)
Definition events_since (w w' : World) : list Event :=
  firstn (List.length (trace w') - List.length (trace w)) (trace w').

Definition is_exec (e : Event) : bool :=
  match e with EvExec _ _ _ _ => true | _ => false end.

Definition is_remove (e : Event) : bool :=
  match e with EvRemoveAll _ _ => true | _ => false end.

Definition is_remove_of (d : string) (e : Event) : bool :=
  match e with EvRemoveAll d' _ => String.eqb d d' | _ => false end.

(** Locating and parsing the template, creating the configuration file and
    rendering into it. *)
Definition template_failure (e : Event) : bool :=
  match e with
  | EvParseFiles _ _ (Some _) => true
  | EvOpenFile _ (Some _) => true
  | EvExecuteTemplate _ _ _ _ (Some _) => true
  | _ => false
  end.

Definition launch_failure (e : Event) : bool :=
  match e with
  | EvExec _ ("run" :: _) _ (Some _) => true
  | _ => false
  end.

(** The directory a call to [ioutil.TempDir] created. *)
Definition created_dir (e : Event) : option string :=
  match e with EvTempDir _ _ d None => Some d | _ => None end.

Fixpoint created_dirs (evs : list Event) : list string :=
  match evs with
  | [] => []
  | e :: evs' =>
      match created_dir e with
      | Some d => d :: created_dirs evs'
      | None => created_dirs evs'
      end
  end.

(** ** A scripted operating system

    Used to run the methods on concrete inputs.  Time is the number of
    external calls made so far; [fails] lists which call fails at which
    time. *)

Inductive Call : Type :=
| CPort | CTempDir | CParse | COpen | CRender | CExec | CRemove.

Definition Call_eqb (a b : Call) : bool :=
  match a, b with
  | CPort, CPort | CTempDir, CTempDir | CParse, CParse | COpen, COpen
  | CRender, CRender | CExec, CExec | CRemove, CRemove => true
  | _, _ => false
  end.

Definition fails_at_time (script : list (Call * nat)) (k : Call) (n : nat) : bool :=
  existsb (fun p => Call_eqb k (fst p) && Nat.eqb n (snd p)) script.

Definition fails_at (script : list (Call * nat)) (k : Call) (w : World) : bool :=
  fails_at_time script k (List.length (trace w)).

Fixpoint pad (n : nat) : string :=
  match n with
  | O => ""
  | S n' => String "x" (pad n')
  end.

Fixpoint total_length (ds : list string) : nat :=
  match ds with
  | [] => 0
  | d :: ds' => String.length d + total_length ds'
  end.

(** A name longer than every name in [ds]. *)
Definition fresh_name (ds : list string) : string :=
  "/tmp/carbon-clickhouse" ++ pad (total_length ds).

Definition digit (n : nat) : string :=
  String (ascii_of_nat (48 + Nat.modulo n 10)) "".

Definition scripted (script : list (Call * nat)) (out : string) : OS :=
  mkOS string
    (fun name w =>
       if fails_at script CPort w
       then ("127.0.0.1:0", Some "listen tcp 127.0.0.1:0: bind: no ports")
       else ("127.0.0.1:4000" ++ digit (List.length (trace w)), None))
    (fun dir pat w =>
       if fails_at script CTempDir w
       then inl "mkdir /tmp: permission denied"
       else inr (fresh_name (dirs w)))
    (fun name file w =>
       if fails_at script CParse w
       then inl "open: no such file or directory"
       else if fails_at_time script CRender (List.length (trace w) + 2)
       then inr "{{.UNDEFINED}}"
       else inr "addr={{.CCH_ADDR}} url={{.CLICKHOUSE_URL}}")
    (fun file w =>
       if fails_at script COpen w
       then Some "open: permission denied" else None)
    (fun t name p =>
       if String.eqb t "{{.UNDEFINED}}"
       then ("addr=", Some "can't evaluate field UNDEFINED")
       else ("addr=" ++ CCH_ADDR p ++ " url=" ++ CLICKHOUSE_URL p, None))
    (fun bin args w =>
       if fails_at script CExec w
       then (out, Some "exit status 125") else ("", None))
    (fun d w =>
       if fails_at script CRemove w
       then Some "unlinkat: permission denied" else None)
    (fun a b => a ++ "/" ++ b)
    (fun s => s).

Definition world0 : World := mkWorld [] [] [].

Definition cch0 : CarbonClickhouse :=
  configured "v0.11.1" "" "" "carbon-clickhouse.conf.tpl" "".

Definition start0 (os : OS) : CarbonClickhouse -> World -> Result :=
  Start os "/tests" "http://ch:8123" "clickhouse-gch-test".

(** What [file] held in [w]; nothing when it did not exist. *)
Definition previous_contents (file : string) (w : World) : string :=
  match lookup file (files w) with Some s => s | None => "" end.

(** The parts of what a method returns. *)
Definition res_err (r : Result) : option error := fst (fst (fst r)).
Definition res_out (r : Result) : string := snd (fst (fst r)).
Definition res_inst (r : Result) : CarbonClickhouse := snd (fst r).
Definition res_world (r : Result) : World := snd r.

(** Every external call succeeds. *)
Definition os_fine : OS := scripted [] "".

(** Rendering the template fails in a first [Start]. *)
Definition os_render_fails : OS := scripted [(CRender, 5)] "".

(** The launch of a first [Start] fails and the runtime prints nothing, as
    a runtime binary does that exits with a failure status in silence. *)
Definition os_launch_silent : OS := scripted [(CExec, 6)] "".

(** The launch of a first [Start] fails with a message of the runtime. *)
Definition os_launch_conflict : OS :=
  scripted [(CExec, 6)]
    "docker: Error response from daemon: Conflict. The container name is already in use.".

(** The subprocess run right after a first [Start] fails. *)
Definition os_next_exec_fails : OS :=
  scripted [(CExec, 7)] "Error response from daemon: No such container".

(** The port allocation right after a first [Start] fails. *)
Definition os_next_port_fails : OS := scripted [(CPort, 7)] "".

(** The instance and the world after a first [Start] in which everything
    succeeded. *)
Definition started : Result := start0 os_fine cch0 world0.

(** Directory [d], not tracked by [c'], is on disk in [w'], and no call
    between [w] and [w'] was [os.RemoveAll] on it. *)
Definition keeps (d : string) (c' : CarbonClickhouse) (w w' : World) : Prop :=
  d <> ""
  /\ storeDir c' <> d
  /\ mem d (dirs w') = true
  /\ exists evs : list Event,
       trace w' = (evs ++ trace w)%list
       /\ existsb (is_remove_of d) evs = false.

(** Any number of [Cleanup] calls in a row. *)
Fixpoint cleanups (os : OS) (n : nat) (c : CarbonClickhouse) (w : World)
  : CarbonClickhouse * World :=
  match n with
  | O => (c, w)
  | S n' => let '(c, w) := Cleanup os c w in cleanups os n' c w
  end.

(** A subprocess event is well formed: the binary has a name, and the
    command is [run -d --name <fixed name> ...], [stop <fixed name>] or
    [rm <fixed name>].  Other events are not subprocesses. *)
Definition exec_ok (e : Event) : bool :=
  match e with
  | EvExec bin args _ _ =>
      negb (String.eqb bin "")
      && match args with
         | ["stop"; n] => String.eqb n CchContainerName
         | ["rm"; n] => String.eqb n CchContainerName
         | "run" :: "-d" :: "--name" :: n :: _ => String.eqb n CchContainerName
         | _ => false
         end
  | _ => true
  end.

(** The log of [w'] is that of [w] with further events in front, all of
    which satisfy [P]. *)
Definition extends (P : Event -> bool) (w w' : World) : Prop :=
  exists evs : list Event,
    trace w' = (evs ++ trace w)%list /\ forallb P evs = true.

Definition not_remove (e : Event) : bool := negb (is_remove e).

(** An instance that is not named, or is named and has its runtime binary
    set. *)
Definition binary_set (c : CarbonClickhouse) : Prop :=
  container c = ""
  \/ (container c = CchContainerName /\ Docker c <> "").

(** The removal of the scratch directory fails in the [Stop] that follows a
    first [Start]. *)
Definition os_removal_fails : OS := scripted [(CRemove, 9)] "".

(** * The Prometheus handler

    [ServeHTTP] and the template helpers of [prometheus/handler.go].  What
    the handler does to the response writer, and which other handler it
    hands the request to, is the list of its actions, oldest first. *)

Definition StatusFound : nat := 302.
Definition StatusInternalServerError : nat := 500.

Inductive Action : Type :=
| CallRead                        (* h.read(w, r) *)
| CallApiV1 (urlPath : string)    (* http.StripPrefix("/api/v1", h.apiV1Router).ServeHTTP(w, r) *)
| CallStatic                      (* server.StaticFileServer(ui.Assets).ServeHTTP(w, r) *)
| HttpRedirect (url : string) (code : nat)
| HttpError (msg : string) (code : nat)
| WriteString (s : string).

(** What the handler gets from outside: the path of the external URL of the
    configuration, the embedded assets, the template expander of Prometheus
    with its function map installed, the clock, and [path.Join]. *)
Record Web : Type := mkWeb {
  web_file : Type;
  web_data : Type;
  web_time : Type;
  ExternalURL_Path : string;
  Assets_Open : string -> error + web_file;
  ioutil_ReadAll : web_file -> error + string;
  ExpandHTML : string -> string -> option web_data -> string -> error + string;
  time_Since : web_time -> Z;
  web_path_Join : string -> string -> string
}.

(** [strings.HasPrefix] and [strings.HasSuffix]. *)
Definition HasPrefix (s prefix : string) : bool := String.prefix prefix s.

Definition HasSuffix (s suffix : string) : bool :=
  (String.length suffix <=? String.length s)%nat
  && String.eqb (drop (String.length s - String.length suffix) s) suffix.

(** [errors.Wrap(err, msg)]: the message of the wrapped error. *)
Definition errors_Wrap (err : error) (msg : string) : error :=
  msg ++ ": " ++ err.

Section Handler.

Variable h : Web.

(** The closure [appendf] of [getTemplate], with the text gathered so far
    passed in and out. *)
Definition appendf (tmpl name : string) : string * option error :=
  match Assets_Open h (web_path_Join h "/templates" name) with
  | inl err => (tmpl, Some err)
  | inr f =>
      match ioutil_ReadAll h f with
      | inl err => (tmpl, Some err)
      | inr b => (tmpl ++ b, None)
      end
  end.

Definition getTemplate (name : string) : string * option error :=
  let tmpl := "" in
  let '(tmpl, err) := appendf tmpl "_base.html" in
  match err with
  | Some err => ("", Some (errors_Wrap err "error reading base template"))
  | None =>
  let '(tmpl, err) := appendf tmpl name in
  match err with
  | Some err =>
      ("", Some (errors_Wrap err ("error reading page template " ++ name)))
  | None => (tmpl, None)
  end end.

(** The first [http.Error] is not followed by a [return]. *)
Definition executeTemplate (name : string) (data : option (web_data h))
  : list Action :=
  let '(text, err) := getTemplate name in
  let w := match err with
           | Some err => [HttpError err StatusInternalServerError]
           | None => []
           end in
  match ExpandHTML h text name data
                   (ExternalURL_Path h ++ "/consoles/index.html") with
  | inl err => List.app w [HttpError err StatusInternalServerError]
  | inr result => List.app w [WriteString result]
  end.

Definition graph : list Action := executeTemplate "graph.html" None.

Definition ServeHTTP (urlPath : string) : list Action :=
  if HasSuffix urlPath "/read" then [CallRead]
  else if HasPrefix urlPath "/api/v1" then [CallApiV1 urlPath]
  else if String.eqb urlPath "/graph" then graph
  else if HasPrefix urlPath "/static/" then [CallStatic]
  else [HttpRedirect (web_path_Join h (ExternalURL_Path h) "/graph")
                     StatusFound].

(** ** The template functions of [tmplFuncs] *)

(** Go's [int64], and [int] on 64-bit platforms. *)
Definition wrap64 (z : Z) : Z :=
  ((z + 9223372036854775808) mod 18446744073709551616 - 9223372036854775808)%Z.

(** [time.Millisecond], in nanoseconds. *)
Definition Millisecond : Z := 1000000%Z.

(** ["since"]: [time.Since(t) / time.Millisecond * time.Millisecond]. *)
Definition since (t : web_time h) : Z :=
  wrap64 (wrap64 (Z.quot (time_Since h t) Millisecond) * Millisecond).

End Handler.

(** [scrape.TargetHealth] is a string type of Prometheus, with the
    constants [HealthUnknown], [HealthGood] and [HealthBad]; a target of the
    pool is represented by what its [Health()] returns. *)
Definition TargetHealth : Type := string.
Definition scrape_HealthUnknown : TargetHealth := "unknown".
Definition scrape_HealthGood : TargetHealth := "up".
Definition scrape_HealthBad : TargetHealth := "down".

(** The loop of ["numHealthy"] over the health of each target of the
    pool. *)
Fixpoint numHealthy_loop (pool : list TargetHealth) (alive : Z) : Z :=
  match pool with
  | [] => alive
  | p :: pool' =>
      numHealthy_loop pool'
        (if negb (String.eqb p scrape_HealthGood)
         then wrap64 (alive - 1) else alive)
  end.

Definition numHealthy (pool : list TargetHealth) : Z :=
  numHealthy_loop pool (Z.of_nat (List.length pool)).

Definition targetHealthToClass (th : TargetHealth) : string :=
  if String.eqb th scrape_HealthUnknown then "warning"
  else if String.eqb th scrape_HealthGood then "success"
  else "danger".

(** The targets shown as healthy by [targetHealthToClass]. *)
Definition count_success (pool : list TargetHealth) : nat :=
  List.length
    (filter (fun p => String.eqb (targetHealthToClass p) "success") pool).

(** The number of healthy targets, counted directly. *)
Definition count_good (pool : list TargetHealth) : nat :=
  List.length (filter (fun p => String.eqb p scrape_HealthGood) pool).



(** A handler over a table of assets.  An empty page stands for a page
    that cannot be read; a template that mentions [{{fail}}] does not
    expand. *)
Definition web_of (external : string) (assets : list (string * string)) : Web :=
  mkWeb string unit Z external
    (fun file =>
       match lookup file assets with
       | Some s => inr s
       | None => inl ("open " ++ file ++ ": file does not exist")
       end)
    (fun f => if String.eqb f "" then inl "unexpected EOF" else inr f)
    (fun text name data consoles =>
       if HasSuffix text "{{fail}}"
       then inl ("error executing template " ++ name)
       else inr ("<html>" ++ text ++ "</html>"))
    (fun t => (1700000000123456789 - t)%Z)
    (fun a b => if HasPrefix b "/" then a ++ b else a ++ "/" ++ b).

Definition web0 : Web :=
  web_of "" [("/templates/_base.html", "<base>");
             ("/templates/graph.html", "<graph>")].

Definition web_no_base : Web :=
  web_of "/prom" [("/templates/graph.html", "<graph>")].

(** ** Basic facts *)

Lemma events_since_app (w w' : World) (evs : list Event) :
  trace w' = (evs ++ trace w)%list -> events_since w w' = evs.
Proof.
  intros E. unfold events_since. rewrite E, length_app.
  replace (List.length evs + List.length (trace w) - List.length (trace w))
    with (List.length evs + 0) by lia.
  rewrite firstn_app_2. simpl. apply app_nil_r.
Qed.

Lemma events_since_refl (w : World) : events_since w w = [].
Proof. apply events_since_app. reflexivity. Qed.

Lemma length_zero_empty (s : string) :
  Nat.eqb (String.length s) 0 = true <-> s = "".
Proof.
  destruct s; simpl; split; intros H; try reflexivity; discriminate.
Qed.

Lemma length_nonzero_nonempty (s : string) :
  Nat.eqb (String.length s) 0 = false <-> s <> "".
Proof.
  destruct s; simpl; split; intros H; try congruence; discriminate.
Qed.

Lemma eqb_empty_false (s : string) : s <> "" -> String.eqb s "" = false.
Proof. intros H. apply String.eqb_neq. exact H. Qed.

Lemma mem_remove_dir (d : string) (ds : list string) :
  mem d (remove_dir d ds) = false.
Proof.
  unfold mem, remove_dir. induction ds as [|x ds IH]; simpl; [reflexivity|].
  destruct (String.eqb d x) eqn:E; simpl; [exact IH|].
  rewrite E. exact IH.
Qed.

Lemma mem_remove_other (d d' : string) (ds : list string) :
  d <> d' -> mem d (remove_dir d' ds) = mem d ds.
Proof.
  intros N. unfold mem, remove_dir. induction ds as [|x ds IH]; simpl; [reflexivity|].
  destruct (String.eqb d' x) eqn:E; simpl.
  - apply String.eqb_eq in E. subst x.
    rewrite (proj2 (String.eqb_neq d d') N). exact IH.
  - rewrite IH. reflexivity.
Qed.

Lemma lookup_store (k v : string) (fs : list (string * string)) :
  lookup k (store k v fs) = Some v.
Proof.
  induction fs as [|[k' v'] fs IH]; simpl.
  - rewrite String.eqb_refl. reflexivity.
  - destruct (String.eqb k k') eqn:E; simpl.
    + rewrite String.eqb_refl. reflexivity.
    + rewrite E. exact IH.
Qed.

Lemma overwrite_empty (text : string) : overwrite text "" = text.
Proof.
  unfold overwrite. replace (drop (String.length text) "") with "".
  - induction text as [|a t IH]; simpl; [reflexivity|]. now rewrite IH.
  - destruct (String.length text); reflexivity.
Qed.

(** Unfolding the methods down to the oracles and splitting on every answer. *)
Ltac unfold_calls :=
  unfold Start, Stop, Delete, Cleanup, getFreeTCPPort, ioutil_TempDir,
         template_ParseFiles, os_OpenFile, ExecuteTemplate, CombinedOutput,
         os_RemoveAll in *.

Ltac split_scrutinee x :=
  lazymatch x with
  | context [match _ with _ => _ end] => fail
  | _ => destruct x eqn:?
  end.

Ltac split_answers :=
  repeat match goal with
         | H : context [match ?x with _ => _ end] |- _ => split_scrutinee x
         | |- context [match ?x with _ => _ end] => split_scrutinee x
         end.

Ltac reify_events tr base :=
  lazymatch tr with
  | base => constr:(@nil Event)
  | ?e :: ?tr' => let r := reify_events tr' base in constr:(e :: r)
  end.

(** Computes [events_since w w'] when the log of [w'] visibly extends that
    of [w]. *)
Ltac read_log :=
  repeat match goal with
         | H : context [events_since ?w ?w'] |- _ =>
             let tr := eval cbn [trace log with_dirs with_files fst snd] in (trace w') in
             let evs := reify_events tr (trace w) in
             rewrite (events_since_app w w' evs eq_refl) in H
         | |- context [events_since ?w ?w'] =>
             let tr := eval cbn [trace log with_dirs with_files fst snd] in (trace w') in
             let evs := reify_events tr (trace w) in
             rewrite (events_since_app w w' evs eq_refl)
         end.

(** ** Start *)

(** C9.  A [Start] with an empty version returns the validation error and
    the empty output at once, and leaves the instance and the outside world
    as they were: no port is reserved, no directory created, no subprocess
    run.  With a non-empty version an unset runtime binary becomes
    ["docker"] and an unset image becomes ["lomik/carbon-clickhouse"],
    whatever happens later in the call; the two come from [defaults], a
    function of the instance alone. *)
Theorem Start_validation_and_defaults
  (os : OS) (testDir url link : string) (c : CarbonClickhouse) (w : World) :
  (Version c = "" ->
   Start os testDir url link c w = ((Some "version not set", ""), c, w)
   /\ events_since w (snd (Start os testDir url link c w)) = []) /\
  (Version c <> "" ->
   forall r c' w', Start os testDir url link c w = (r, c', w') ->
     Docker c' = Docker (defaults c)
     /\ DockerImage c' = DockerImage (defaults c)
     /\ Docker c' = (if String.eqb (Docker c) "" then "docker" else Docker c)
     /\ DockerImage c' = (if String.eqb (DockerImage c) ""
                          then "lomik/carbon-clickhouse" else DockerImage c)).
Proof.
  split.
  - intros V. unfold Start. rewrite V. simpl. split; [reflexivity|].
    apply events_since_refl.
  - intros V r c' w' H.
    assert (D : Docker (defaults c)
                = (if String.eqb (Docker c) "" then "docker" else Docker c)
                /\ DockerImage (defaults c)
                   = (if String.eqb (DockerImage c) ""
                      then "lomik/carbon-clickhouse" else DockerImage c)).
    { unfold defaults. destruct c as [v d i t z a k s]; simpl.
      destruct d, i; simpl; split; reflexivity. }
    destruct D as [D1 D2]. rewrite <- D1, <- D2.
    apply length_nonzero_nonempty in V.
    unfold_calls. rewrite V in H.
    remember (defaults c) as c0.
    split_answers; inversion H; subst; simpl; auto.
Qed.

(** C2.  When locating or parsing the template, creating the configuration
    file or rendering into it fails, [Start] returns a non-nil error with
    empty output; its last external call is [os.RemoveAll] on the one
    scratch directory this call created, that directory is no longer
    tracked, it is gone from disk whenever the removal reported no error,
    and no subprocess was run. *)
Theorem Start_template_failure_cleans_up
  (os : OS) (testDir url link : string) (c : CarbonClickhouse) (w : World)
  (r : option error * string) (c' : CarbonClickhouse) (w' : World) :
  temp_dir_ok os ->
  Start os testDir url link c w = (r, c', w') ->
  existsb template_failure (events_since w w') = true ->
  exists (e : error) (d : string) (re : option error) (rest : list Event),
    r = (Some e, "")
    /\ events_since w w' = EvRemoveAll d re :: rest
    /\ created_dirs rest = [d]
    /\ existsb is_remove rest = false
    /\ existsb is_exec (events_since w w') = false
    /\ storeDir c' = ""
    /\ (re = None -> mem d (dirs w') = false).
Proof.
  intros Fresh H F.
  unfold_calls.
  split_answers; inversion H; subst; clear H; read_log;
    simpl in F; try discriminate;
    try match goal with
        | E : os_temp_dir _ _ _ _ = inr ?d |- _ =>
            destruct (Fresh _ _ _ _ E) as [Ne _];
            try (simpl in *; rewrite (eqb_empty_false _ Ne) in *; discriminate)
        end.
  all: eexists _, _, _, _; repeat split; try reflexivity;
    simpl; intros; try discriminate; apply mem_remove_dir.
Qed.

Lemma mem_head (d : string) (ds : list string) : mem d (d :: ds) = true.
Proof. unfold mem. simpl. rewrite String.eqb_refl. reflexivity. Qed.

(** C3, amended.  When the runtime invocation that launches the container
    fails, [Start] returns that error together with the combined output of
    the subprocess exactly as it was produced, empty or not.  [Start] made
    no call to [os.RemoveAll]: the scratch directory it created is still
    tracked and still on disk, and the configuration file in it holds the
    rendered text. *)
Theorem Start_launch_failure_keeps_scratch
  (os : OS) (testDir url link : string) (c : CarbonClickhouse) (w : World)
  (r : option error * string) (c' : CarbonClickhouse) (w' : World) :
  Start os testDir url link c w = (r, c', w') ->
  existsb launch_failure (events_since w w') = true ->
  exists (e : error) (out bin : string) (args : list string)
         (file name text : string) (param : Param) (rest : list Event),
    events_since w w'
    = EvExec bin args out (Some e)
        :: EvExecuteTemplate file name param text None :: rest
    /\ r = (Some e, out)
    /\ existsb is_remove (events_since w w') = false
    /\ created_dirs rest = [storeDir c']
    /\ mem (storeDir c') (dirs w') = true
    /\ file = path_Join os (storeDir c') "carbon-clickhouse.conf"
    /\ lookup file (files w')
       = Some (overwrite text (previous_contents file w)).
Proof.
  intros H F. unfold previous_contents.
  unfold_calls.
  split_answers; inversion H; subst; clear H; read_log;
    simpl in F; try discriminate.
  all: match type of F with
       | context [match ?o with Some _ => _ | None => _ end] =>
           destruct o; [|discriminate]
       end.
  all: eexists _, _, _, _, _, _, _, _, _; repeat split; try reflexivity;
    simpl; try apply mem_head.
  all: rewrite lookup_store; f_equal; f_equal.
  all: simpl in *; rewrite ?lookup_store in *; try congruence.
  all: repeat match goal with
              | H : lookup ?f ?fs = _ |- context [lookup ?f ?fs] => rewrite H
              end; congruence.
Qed.

(** C8.  After a [Start] that returns no error, the log of the call reads,
    oldest first: a port allocation, the creation of the scratch directory,
    a second port allocation, then parsing, opening and rendering, and last
    the launch.  The address answered by the second allocation is the
    [CCH_ADDR] parameter the template was rendered with, the host side of
    the [-p] port mapping of the launch, and what [Address] returns; it is
    not empty.  [Container] returns the fixed container name. *)
Theorem Start_success_uses_second_address
  (os : OS) (testDir url link : string) (c : CarbonClickhouse) (w : World)
  (out : string) (c' : CarbonClickhouse) (w' : World) :
  free_port_ok os ->
  Start os testDir url link c w = ((None, out), c', w') ->
  exists (first : string) (t : tmpl os) (text : string),
    let file := path_Join os (storeDir c') "carbon-clickhouse.conf" in
    let name := filepath_Base os (Template c') in
    let param := mkParam url (Address c') in
    events_since w w'
    = [ EvExec (Docker c')
          (List.app
             ["run"; "-d"; "--name"; CchContainerName;
              "-p"; Address c' ++ ":2003";
              "-v"; storeDir c' ++ ":/etc/carbon-clickhouse";
              "--link"; link]
             (List.app
                (if String.eqb (TZ c') "" then []
                 else ["-e"; "TZ=" ++ TZ c'])
                [DockerImage c' ++ ":" ++ Version c']))
          out None;
        EvExecuteTemplate file name param text None;
        EvOpenFile file None;
        EvParseFiles name (path_Join os testDir (Template c')) None;
        EvFreePort "" (Address c') None;
        EvTempDir "" "carbon-clickhouse" (storeDir c') None;
        EvFreePort "" first None ]
    /\ os_execute os t name param = (text, None)
    /\ lookup file (files w') = Some (overwrite text (previous_contents file w))
    /\ Address c' <> ""
    /\ Container c' = CchContainerName.
Proof.
  intros Port H. unfold previous_contents, Address, Container.
  unfold_calls.
  split_answers; inversion H; subst; clear H; read_log; simpl in *.
  all: exists s, t, s2; cbn zeta.
  all: destruct (String.eqb (TZ (defaults c)) ""); try discriminate.
  all: repeat split; try reflexivity; try assumption;
    try (eapply Port; eassumption).
  all: rewrite lookup_store; f_equal; f_equal.
  all: simpl in *; rewrite ?lookup_store in *; try congruence.
  all: repeat match goal with
              | E : lookup ?f ?fs = _ |- context [lookup ?f ?fs] => rewrite E
              end; congruence.
Qed.

(** ** Cleanup, Delete and Stop *)

Lemma Cleanup_untracked (os : OS) (c : CarbonClickhouse) (w : World) :
  storeDir c = "" -> Cleanup os c w = (c, w).
Proof. intros E. unfold Cleanup. rewrite E. reflexivity. Qed.

Lemma Cleanup_instance (os : OS) (c : CarbonClickhouse) (w : World) :
  fst (Cleanup os c w) = set_storeDir "" c.
Proof.
  unfold Cleanup. destruct (String.eqb (storeDir c) "") eqn:E; simpl.
  - apply String.eqb_eq in E. destruct c; simpl in *. subst. reflexivity.
  - destruct (os_RemoveAll os (storeDir c) w). reflexivity.
Qed.

Lemma Cleanup_twice (os : OS) (c : CarbonClickhouse) (w : World) :
  Cleanup os (fst (Cleanup os c w)) (snd (Cleanup os c w)) = Cleanup os c w.
Proof.
  rewrite Cleanup_untracked.
  - destruct (Cleanup os c w); reflexivity.
  - rewrite Cleanup_instance. reflexivity.
Qed.

Lemma cleanups_untracked (os : OS) (n : nat) (c : CarbonClickhouse) (w : World) :
  storeDir c = "" -> cleanups os n c w = (c, w).
Proof.
  intros E. induction n as [|n IH]; simpl; [reflexivity|].
  rewrite (Cleanup_untracked os c w E). exact IH.
Qed.

Lemma cleanups_once (os : OS) (n : nat) (c : CarbonClickhouse) (w : World) :
  cleanups os (S n) c w = Cleanup os c w.
Proof.
  simpl. pose proof (Cleanup_instance os c w) as I.
  destruct (Cleanup os c w) as [c1 w1]. simpl in I.
  apply cleanups_untracked. rewrite I. reflexivity.
Qed.

(** C6.  Any number of [Cleanup] calls in a row does what one call does, and
    a second call changes nothing.  With a tracked scratch directory the one
    effective call makes exactly one external call, [os.RemoveAll] on that
    directory, which is gone from disk when the removal reports no error;
    with none tracked the call changes nothing.  Afterwards no directory is
    tracked, and the instance is the same whatever the operating system
    answered: [Cleanup] has no error result and keeps none. *)
Theorem Cleanup_idempotent_and_silent
  (os : OS) (c : CarbonClickhouse) (w : World) (n : nat) :
  cleanups os (S n) c w = Cleanup os c w
  /\ Cleanup os (fst (Cleanup os c w)) (snd (Cleanup os c w)) = Cleanup os c w
  /\ (storeDir c = "" -> Cleanup os c w = (c, w))
  /\ (storeDir c <> "" ->
      exists re : option error,
        events_since w (snd (cleanups os (S n) c w))
        = [EvRemoveAll (storeDir c) re]
        /\ (re = None ->
            mem (storeDir c) (dirs (snd (cleanups os (S n) c w))) = false))
  /\ storeDir (fst (Cleanup os c w)) = ""
  /\ (forall (os' : OS) (w' : World),
        fst (Cleanup os' c w') = fst (Cleanup os c w)).
Proof.
  split; [apply cleanups_once|].
  split; [apply Cleanup_twice|].
  split; [apply Cleanup_untracked|].
  split.
  - intros N. rewrite cleanups_once. unfold Cleanup, os_RemoveAll.
    rewrite (eqb_empty_false _ N). simpl.
    destruct (os_remove_all os (storeDir c) w) as [e|] eqn:E.
    + exists (Some e). read_log. split; [reflexivity|discriminate].
    + exists None. read_log. split; [reflexivity|].
      intros _. simpl. apply mem_remove_dir.
  - split.
    + rewrite Cleanup_instance. reflexivity.
    + intros os' w'. rewrite !Cleanup_instance. reflexivity.
Qed.

Lemma Delete_unnamed (os : OS) (c : CarbonClickhouse) (w : World) :
  container c = "" -> Delete os c w = ((None, ""), c, w).
Proof. intros E. unfold Delete. rewrite E. reflexivity. Qed.

Lemma Stop_unnamed (os : OS) (delete : bool) (c : CarbonClickhouse) (w : World) :
  container c = "" -> Stop os delete c w = ((None, ""), c, w).
Proof. intros E. unfold Stop. rewrite E. reflexivity. Qed.

(** C4.  [Delete] on an instance with a tracked container runs
    [<docker> rm <container>] and returns the error and the combined output
    of that invocation.  When the invocation succeeds the tracked container
    is cleared, when it fails the tracked container is kept; in both cases
    [Cleanup] runs next, on the world left by the invocation, so no scratch
    directory is tracked afterwards. *)
Theorem Delete_tracked_container
  (os : OS) (c : CarbonClickhouse) (w : World) :
  container c <> "" ->
  let answer := os_exec os (Docker c) ["rm"; container c] w in
  let w1 := log (EvExec (Docker c) ["rm"; container c]
                        (fst answer) (snd answer)) w in
  let c1 := if is_nil (snd answer) then set_container "" c else c in
  Delete os c w
  = ((snd answer, fst answer),
     fst (Cleanup os c1 w1), snd (Cleanup os c1 w1))
  /\ container (snd (fst (Delete os c w)))
     = (if is_nil (snd answer) then "" else container c)
  /\ storeDir (snd (fst (Delete os c w))) = "".
Proof.
  intros N. cbn zeta.
  assert (D : Delete os c w
              = ((snd (os_exec os (Docker c) ["rm"; container c] w),
                  fst (os_exec os (Docker c) ["rm"; container c] w)),
                 fst (Cleanup os
                        (if is_nil (snd (os_exec os (Docker c)
                                                ["rm"; container c] w))
                         then set_container "" c else c)
                        (log (EvExec (Docker c) ["rm"; container c]
                                (fst (os_exec os (Docker c)
                                        ["rm"; container c] w))
                                (snd (os_exec os (Docker c)
                                        ["rm"; container c] w))) w)),
                 snd (Cleanup os
                        (if is_nil (snd (os_exec os (Docker c)
                                                ["rm"; container c] w))
                         then set_container "" c else c)
                        (log (EvExec (Docker c) ["rm"; container c]
                                (fst (os_exec os (Docker c)
                                        ["rm"; container c] w))
                                (snd (os_exec os (Docker c)
                                        ["rm"; container c] w))) w)))).
  { unfold Delete, CombinedOutput.
    rewrite (proj2 (length_nonzero_nonempty _) N).
    destruct (os_exec os (Docker c) ["rm"; container c] w) as [out [e|]];
      simpl;
      match goal with
      | |- context [Cleanup os ?x ?y] => destruct (Cleanup os x y)
      end; reflexivity. }
  split; [exact D|].
  rewrite D. simpl. rewrite !Cleanup_instance.
  destruct (snd (os_exec os (Docker c) ["rm"; container c] w));
    simpl; split; reflexivity.
Qed.

(** C5.  [Stop] on an instance with a tracked container runs
    [<docker> stop <container>].  When that succeeds and deletion was asked
    for, [Stop] is [Delete] run next and returns what [Delete] returns.
    When it fails, [Stop] returns the error and the combined output of the
    stop invocation, whether or not deletion was asked for; the stop
    invocation is the only external call and the instance is unchanged, so
    the container stays tracked. *)
Theorem Stop_tracked_container
  (os : OS) (c : CarbonClickhouse) (w : World) :
  container c <> "" ->
  let answer := os_exec os (Docker c) ["stop"; container c] w in
  let w1 := log (EvExec (Docker c) ["stop"; container c]
                        (fst answer) (snd answer)) w in
  (snd answer = None ->
     Stop os true c w = Delete os c w1
     /\ Stop os false c w = ((None, fst answer), c, w1))
  /\ (snd answer <> None ->
      forall delete : bool,
        Stop os delete c w = ((snd answer, fst answer), c, w1)
        /\ events_since w (snd (Stop os delete c w))
           = [EvExec (Docker c) ["stop"; container c] (fst answer) (snd answer)]
        /\ Container (snd (fst (Stop os delete c w))) = Container c).
Proof.
  intros N. cbn zeta. unfold Stop, CombinedOutput.
  rewrite (proj2 (length_nonzero_nonempty _) N).
  destruct (os_exec os (Docker c) ["stop"; container c] w) as [out [e|]];
    simpl; split.
  - discriminate.
  - intros _ delete. split; [reflexivity|]. split; [|reflexivity].
    read_log. reflexivity.
  - intros _. split; reflexivity.
  - intros F. contradiction F. reflexivity.
Qed.

(** ** Sequences of calls *)

Lemma run_without_start_unnamed (os : OS) (ops : list Op)
  (c : CarbonClickhouse) (w : World) :
  forallb (fun op => negb (is_start op)) ops = true ->
  container c = "" -> storeDir c = "" ->
  run os ops c w = (c, w).
Proof.
  intros F Ec Es. induction ops as [|op ops IH]; simpl; [reflexivity|].
  simpl in F. apply andb_prop in F. destruct F as [F1 F2].
  destruct op as [t u l|del| |]; simpl in *; try discriminate.
  - rewrite (Stop_unnamed os del c w Ec). apply IH, F2.
  - rewrite (Delete_unnamed os c w Ec). apply IH, F2.
  - rewrite (Cleanup_untracked os c w Es). apply IH, F2.
Qed.

(** C7.  On an instance that came from its configuration and on which
    [Start] was never called, whatever other calls were made before, [Stop]
    (asked to delete or not) and [Delete] return [(nil, "")] and leave the
    instance and the outside world, the log of external calls included, as
    they were: no subprocess is run. *)
Theorem Stop_Delete_never_started
  (os : OS) (version docker image template tz : string) (ops : list Op)
  (w : World) (c : CarbonClickhouse) (w' : World) (delete : bool) :
  forallb (fun op => negb (is_start op)) ops = true ->
  run os ops (configured version docker image template tz) w = (c, w') ->
  Container c = ""
  /\ w' = w
  /\ Stop os delete c w' = ((None, ""), c, w')
  /\ Delete os c w' = ((None, ""), c, w')
  /\ existsb is_exec (events_since w (snd (Stop os delete c w'))) = false
  /\ existsb is_exec (events_since w (snd (Delete os c w'))) = false.
Proof.
  intros F R.
  rewrite (run_without_start_unnamed os ops
             (configured version docker image template tz) w F
             eq_refl eq_refl) in R.
  inversion R; subst; clear R.
  rewrite Stop_unnamed, Delete_unnamed by reflexivity. simpl.
  rewrite events_since_refl. repeat split; reflexivity.
Qed.

Lemma container_defaults (c : CarbonClickhouse) :
  container (defaults c) = container c.
Proof.
  unfold defaults.
  destruct (Nat.eqb (String.length (Docker c)) 0); simpl;
    match goal with
    | |- context [if ?b then _ else _] => destruct b
    end; reflexivity.
Qed.

Lemma storeDir_defaults (c : CarbonClickhouse) :
  storeDir (defaults c) = storeDir c.
Proof.
  unfold defaults.
  destruct (Nat.eqb (String.length (Docker c)) 0); simpl;
    match goal with
    | |- context [if ?b then _ else _] => destruct b
    end; reflexivity.
Qed.

Lemma Start_container (os : OS) (t u l : string) (c : CarbonClickhouse)
  (w : World) (r : option error * string) (c' : CarbonClickhouse) (w' : World) :
  Start os t u l c w = (r, c', w') ->
  container c' = (if reserves os c w then CchContainerName else container c).
Proof.
  intros H. unfold reserves. unfold_calls.
  split_answers; inversion H; subst; clear H; simpl in *;
    try discriminate; try reflexivity; apply container_defaults.
Qed.

Lemma Delete_container (os : OS) (c : CarbonClickhouse) (w : World)
  (r : option error * string) (c' : CarbonClickhouse) (w' : World) :
  Delete os c w = (r, c', w') ->
  container c' = (if is_nil (fst r) then "" else container c).
Proof.
  intros H. unfold_calls.
  split_answers; inversion H; subst; clear H; simpl in *;
    try discriminate; try reflexivity.
  all: match goal with
       | E : Nat.eqb (String.length _) 0 = true |- _ =>
           apply length_zero_empty in E; exact E
       end.
Qed.

Lemma Stop_container (os : OS) (delete : bool) (c : CarbonClickhouse)
  (w : World) (r : option error * string) (c' : CarbonClickhouse) (w' : World) :
  Stop os delete c w = (r, c', w') ->
  container c'
  = (if delete && is_nil (fst r) then "" else container c).
Proof.
  intros H. unfold Stop, CombinedOutput in H.
  destruct (Nat.eqb (String.length (container c)) 0) eqn:E.
  - inversion H; subst; clear H. simpl. apply length_zero_empty in E.
    rewrite E. destruct delete; reflexivity.
  - destruct (os_exec os (Docker c) ["stop"; container c] w) as [out [e|]].
    + inversion H; subst; clear H. simpl. rewrite andb_false_r. reflexivity.
    + destruct delete.
      * apply Delete_container in H. exact H.
      * inversion H; subst; clear H. reflexivity.
Qed.

Lemma Cleanup_container (os : OS) (c : CarbonClickhouse) (w : World) :
  container (fst (Cleanup os c w)) = container c.
Proof. rewrite Cleanup_instance. reflexivity. Qed.

Lemma step_named (os : OS) (op : Op) (c : CarbonClickhouse) (w : World)
  (named : bool) (r : option error * string) (c' : CarbonClickhouse)
  (w' : World) :
  container c = (if named then CchContainerName else "") ->
  step os op c w = (r, c', w') ->
  container c' = (if named_after os op c w named then CchContainerName else "").
Proof.
  intros N H.
  destruct op as [t u l|del| |]; unfold named_after; try rewrite H;
    simpl in H.
  - apply Start_container in H. rewrite H, N.
    destruct named, (reserves os c w); reflexivity.
  - apply Stop_container in H. rewrite H, N. simpl.
    destruct del, named, (is_nil (fst r)); reflexivity.
  - apply Delete_container in H. rewrite H, N. simpl.
    destruct named, (is_nil (fst r)); reflexivity.
  - pose proof (Cleanup_container os c w) as K.
    destruct (Cleanup os c w) as [c1 w1]. inversion H; subst; clear H.
    simpl in K. rewrite K. exact N.
Qed.

Lemma run_named (os : OS) (ops : list Op) :
  forall (c : CarbonClickhouse) (w : World) (named : bool)
         (c' : CarbonClickhouse) (w' : World),
    container c = (if named then CchContainerName else "") ->
    run os ops c w = (c', w') ->
    container c'
    = (if named_by os ops c w named then CchContainerName else "").
Proof.
  induction ops as [|op ops IH]; intros c w named c' w' N R; simpl in *.
  - inversion R; subst. exact N.
  - destruct (step os op c w) as [[r c1] w1] eqn:S.
    apply (IH c1 w1 _ c' w'); [|exact R].
    apply (step_named os op c w named r c1 w1 N S).
Qed.

(** C1, amended.  Over any sequence of calls on an instance that came from
    its configuration, [Container] is the empty string exactly when the
    instance is not named: no [Start] has got past the check of the version
    and its first port allocation since the instance was configured, or
    since a [Delete], called directly or by [Stop], last returned no error.
    Otherwise [Container] is the fixed container name; this includes the
    time after a [Start] that failed at a later step, the launch
    included. *)
Theorem Container_empty_iff_not_named
  (os : OS) (version docker image template tz : string) (ops : list Op)
  (w : World) (c : CarbonClickhouse) (w' : World) :
  run os ops (configured version docker image template tz) w = (c, w') ->
  (Container c = ""
   <-> named_by os ops (configured version docker image template tz) w false
       = false)
  /\ (Container c <> "" -> Container c = CchContainerName).
Proof.
  intros R. unfold Container.
  rewrite (run_named os ops (configured version docker image template tz)
             w false c w' eq_refl R).
  destruct (named_by os ops _ w false); split; try split;
    intros; try reflexivity; try discriminate; congruence.
Qed.

(** ** Scratch directories left behind *)

Lemma mem_cons (d x : string) (ds : list string) :
  mem d (x :: ds) = (String.eqb d x || mem d ds)%bool.
Proof. reflexivity. Qed.

Lemma keeps_intro (d : string) (c' : CarbonClickhouse) (w w' : World)
  (evs : list Event) :
  d <> "" -> storeDir c' <> d -> mem d (dirs w') = true ->
  trace w' = (evs ++ trace w)%list ->
  existsb (is_remove_of d) evs = false ->
  keeps d c' w w'.
Proof.
  intros A B C D E. split; [exact A|]. split; [exact B|]. split; [exact C|].
  exists evs. split; assumption.
Qed.

Ltac keeps_log :=
  match goal with
  | |- keeps ?d ?c' ?w ?w' =>
      let tr := eval cbn [trace log with_dirs with_files fst snd] in (trace w') in
      let evs := reify_events tr (trace w) in
      apply (keeps_intro d c' w w' evs)
  end.

Lemma Cleanup_keeps (os : OS) (d : string) (c : CarbonClickhouse) (w : World) :
  d <> "" -> storeDir c <> d -> mem d (dirs w) = true ->
  keeps d (fst (Cleanup os c w)) w (snd (Cleanup os c w)).
Proof.
  intros A B C. unfold_calls.
  assert (B' : String.eqb d (storeDir c) = false)
    by (apply String.eqb_neq; congruence).
  split_answers; cbn [fst snd]; keeps_log; simpl;
    try assumption; try reflexivity; try congruence;
    try (rewrite B'; reflexivity).
  rewrite mem_remove_other by congruence. exact C.
Qed.

Lemma Delete_keeps (os : OS) (d : string) (c : CarbonClickhouse) (w : World)
  (r : option error * string) (c' : CarbonClickhouse) (w' : World) :
  d <> "" -> storeDir c <> d -> mem d (dirs w) = true ->
  Delete os c w = (r, c', w') ->
  keeps d c' w w'.
Proof.
  intros A B C H. unfold_calls.
  assert (B' : String.eqb d (storeDir c) = false)
    by (apply String.eqb_neq; congruence).
  split_answers; inversion H; subst; clear H; keeps_log; simpl in *;
    try assumption; try reflexivity; try congruence;
    try (rewrite B'; reflexivity).
  all: rewrite mem_remove_other by congruence; exact C.
Qed.

Lemma Stop_keeps (os : OS) (delete : bool) (d : string) (c : CarbonClickhouse)
  (w : World) (r : option error * string) (c' : CarbonClickhouse) (w' : World) :
  d <> "" -> storeDir c <> d -> mem d (dirs w) = true ->
  Stop os delete c w = (r, c', w') ->
  keeps d c' w w'.
Proof.
  intros A B C H. unfold_calls.
  assert (B' : String.eqb d (storeDir c) = false)
    by (apply String.eqb_neq; congruence).
  split_answers; inversion H; subst; clear H; keeps_log; simpl in *;
    try assumption; try reflexivity; try congruence;
    try (rewrite B'; reflexivity).
  all: rewrite mem_remove_other by congruence; exact C.
Qed.

Lemma Start_keeps (os : OS) (t u l : string) (d : string)
  (c : CarbonClickhouse) (w : World)
  (r : option error * string) (c' : CarbonClickhouse) (w' : World) :
  temp_dir_ok os ->
  d <> "" -> mem d (dirs w) = true ->
  storeDir c <> d \/ reserves os c w = true ->
  Start os t u l c w = (r, c', w') ->
  keeps d c' w w'.
Proof.
  intros Fresh A C B H. unfold reserves in B. unfold_calls.
  split_answers; inversion H; subst; clear H; keeps_log;
    simpl in *; try assumption; try reflexivity;
    try rewrite storeDir_defaults;
    try (destruct B as [B|B]; [exact B|discriminate]);
    try match goal with
        | E : os_temp_dir _ _ _ _ = inr ?s |- _ =>
            destruct (Fresh _ _ _ _ E) as [Ne Nm]; simpl in Nm;
            assert (Nd : d <> s) by (intros ->; congruence);
            assert (Nd' : String.eqb d s = false)
              by (apply String.eqb_neq; exact Nd)
        end;
    try congruence;
    try (rewrite ?mem_remove_other by exact Nd;
         rewrite mem_cons, C; apply orb_true_r);
    try (rewrite Nd'; reflexivity).
Qed.

Lemma keeps_trans (d : string) (c1 c2 : CarbonClickhouse) (w w1 w2 : World) :
  keeps d c1 w w1 -> keeps d c2 w1 w2 -> keeps d c2 w w2.
Proof.
  intros (A & _ & _ & evs1 & T1 & R1) (_ & B & C & evs2 & T2 & R2).
  split; [exact A|]. split; [exact B|]. split; [exact C|].
  exists (evs2 ++ evs1)%list. split.
  - rewrite T2, T1. apply app_assoc.
  - rewrite existsb_app, R1, R2. reflexivity.
Qed.

Lemma run_keeps (os : OS) (d : string) (ops : list Op) :
  temp_dir_ok os ->
  forall (c : CarbonClickhouse) (w0 w : World) (c' : CarbonClickhouse)
         (w' : World),
    keeps d c w0 w ->
    run os ops c w = (c', w') ->
    keeps d c' w0 w'.
Proof.
  intros Ok. induction ops as [|op ops IH]; intros c w0 w c' w' K R; simpl in R.
  - inversion R; subst. exact K.
  - destruct (step os op c w) as [[r c1] w1] eqn:S.
    apply (IH c1 w0 w1 c' w'); [|exact R].
    apply (keeps_trans d c c1 w0 w w1 K).
    destruct K as (A & B & C & _).
    destruct op as [t u l|del| |]; simpl in S.
    + apply (Start_keeps os t u l d c w r c1 w1 Ok A C (or_introl B) S).
    + apply (Stop_keeps os del d c w r c1 w1 A B C S).
    + apply (Delete_keeps os d c w r c1 w1 A B C S).
    + pose proof (Cleanup_keeps os d c w A B C) as K.
      destruct (Cleanup os c w) as [c2 w2]. inversion S; subst. exact K.
Qed.

(** C10, amended.  When [Start] is called on an instance that still tracks
    a scratch directory, and the call gets past the check of the version
    and its first port allocation, the call makes no [os.RemoveAll] on that
    directory and stops tracking it: afterwards the instance tracks either
    nothing or the one directory this call created.  From then on, through
    any further calls on the instance, the old directory stays on disk and
    is never handed to [os.RemoveAll]. *)
Theorem Start_again_orphans_scratch
  (os : OS) (testDir url link : string) (c : CarbonClickhouse) (w : World)
  (r : option error * string) (c' : CarbonClickhouse) (w' : World) :
  temp_dir_ok os ->
  storeDir c <> "" ->
  mem (storeDir c) (dirs w) = true ->
  reserves os c w = true ->
  Start os testDir url link c w = (r, c', w') ->
  storeDir c' <> storeDir c
  /\ (storeDir c' = "" \/ created_dirs (events_since w w') = [storeDir c'])
  /\ existsb (is_remove_of (storeDir c)) (events_since w w') = false
  /\ forall (ops : list Op) (c'' : CarbonClickhouse) (w'' : World),
       run os ops c' w' = (c'', w'') ->
       storeDir c'' <> storeDir c
       /\ mem (storeDir c) (dirs w'') = true
       /\ existsb (is_remove_of (storeDir c)) (events_since w w'') = false.
Proof.
  intros Ok A C B H.
  pose proof (Start_keeps os testDir url link (storeDir c) c w r c' w'
                Ok A C (or_intror B) H) as K.
  split; [apply K|]. split.
  - clear K. unfold reserves in B. unfold_calls.
    split_answers; inversion H; subst; clear H; read_log; simpl in *;
      try discriminate; auto.
  - split.
    + destruct K as (_ & _ & _ & evs & T & R).
      rewrite (events_since_app w w' evs T). exact R.
    + intros ops c'' w'' R.
      destruct (run_keeps os (storeDir c) ops Ok c' w w' c'' w'' K R)
        as (_ & N & M & evs & T & E).
      split; [exact N|]. split; [exact M|].
      rewrite (events_since_app w w'' evs T). exact E.
Qed.

(** ** The scripted operating system is well behaved *)

Lemma length_pad (n : nat) : String.length (pad n) = n.
Proof. induction n as [|n IH]; simpl; [reflexivity|]. now rewrite IH. Qed.

Lemma length_fresh_name (ds : list string) :
  String.length (fresh_name ds) = 22 + total_length ds.
Proof. unfold fresh_name. simpl. rewrite length_pad. reflexivity. Qed.

Lemma mem_shorter (d : string) (ds : list string) :
  total_length ds < String.length d -> mem d ds = false.
Proof.
  unfold mem. induction ds as [|x ds IH]; simpl; intros L; [reflexivity|].
  rewrite IH by lia. rewrite orb_false_r.
  apply String.eqb_neq. intros ->. lia.
Qed.

Lemma scripted_temp_dir_ok (script : list (Call * nat)) (out : string) :
  temp_dir_ok (scripted script out).
Proof.
  intros dir pat w d. simpl.
  destruct (fails_at script CTempDir w); [discriminate|].
  intros E. inversion E; subst; clear E. split.
  - unfold fresh_name. simpl. discriminate.
  - apply mem_shorter. rewrite length_fresh_name. lia.
Qed.

Lemma scripted_free_port_ok (script : list (Call * nat)) (out : string) :
  free_port_ok (scripted script out).
Proof.
  intros name w a. simpl.
  destruct (fails_at script CPort w); [discriminate|].
  intros E. inversion E; subst; clear E. simpl. discriminate.
Qed.

Lemma Start_validation_and_defaults_witness :
  (Start os_fine "/tests" "http://ch:8123" "clickhouse-gch-test"
         (configured "" "" "" "carbon-clickhouse.conf.tpl" "") world0
   = ((Some "version not set", ""),
      configured "" "" "" "carbon-clickhouse.conf.tpl" "", world0))
  /\ Docker (res_inst started) = "docker"
  /\ DockerImage (res_inst started) = "lomik/carbon-clickhouse".
Proof.
  split.
  - apply (proj1 (Start_validation_and_defaults os_fine
                    "/tests" "http://ch:8123" "clickhouse-gch-test"
                    (configured "" "" "" "carbon-clickhouse.conf.tpl" "")
                    world0)).
    reflexivity.
  - assert (V : Version cch0 <> "") by (simpl; discriminate).
    destruct (proj2 (Start_validation_and_defaults os_fine
                       "/tests" "http://ch:8123" "clickhouse-gch-test"
                       cch0 world0)
                V (fst (fst started)) (res_inst started) (res_world started)
                eq_refl) as (_ & _ & D & I).
    split; [exact D|exact I].
Defined.

Lemma Start_template_failure_cleans_up_witness :
  let res := start0 os_render_fails cch0 world0 in
  exists (e : error) (d : string) (re : option error) (rest : list Event),
    fst (fst res) = (Some e, "")
    /\ events_since world0 (res_world res) = EvRemoveAll d re :: rest
    /\ created_dirs rest = [d]
    /\ existsb is_remove rest = false
    /\ existsb is_exec (events_since world0 (res_world res)) = false
    /\ storeDir (res_inst res) = ""
    /\ (re = None -> mem d (dirs (res_world res)) = false).
Proof.
  cbv zeta.
  apply (Start_template_failure_cleans_up os_render_fails
           "/tests" "http://ch:8123" "clickhouse-gch-test" cch0 world0).
  - apply scripted_temp_dir_ok.
  - vm_compute. reflexivity.
  - vm_compute. reflexivity.
Defined.

(** C3 as stated fails: here the launch fails and the output that [Start]
    returns with the error is empty. *)
Lemma Start_launch_failure_output_may_be_empty :
  let res := start0 os_launch_silent cch0 world0 in
  existsb launch_failure (events_since world0 (res_world res)) = true
  /\ res_err res = Some "exit status 125"
  /\ res_out res = "".
Proof. vm_compute. repeat split; reflexivity. Qed.

Lemma Start_launch_failure_keeps_scratch_witness :
  let res := start0 os_launch_conflict cch0 world0 in
  exists (e : error) (out bin : string) (args : list string)
         (file name text : string) (param : Param) (rest : list Event),
    events_since world0 (res_world res)
    = EvExec bin args out (Some e)
        :: EvExecuteTemplate file name param text None :: rest
    /\ fst (fst res) = (Some e, out)
    /\ existsb is_remove (events_since world0 (res_world res)) = false
    /\ created_dirs rest = [storeDir (res_inst res)]
    /\ mem (storeDir (res_inst res)) (dirs (res_world res)) = true
    /\ file = path_Join os_launch_conflict (storeDir (res_inst res))
                        "carbon-clickhouse.conf"
    /\ lookup file (files (res_world res))
       = Some (overwrite text (previous_contents file world0)).
Proof.
  cbv zeta.
  apply (Start_launch_failure_keeps_scratch os_launch_conflict
           "/tests" "http://ch:8123" "clickhouse-gch-test" cch0 world0).
  - vm_compute. reflexivity.
  - vm_compute. reflexivity.
Defined.

Lemma Start_success_uses_second_address_witness :
  Address (res_inst started) = "127.0.0.1:40002"
  /\ Container (res_inst started) = CchContainerName
  /\ exists (first : string) (text : string),
       events_since world0 (res_world started)
       = [ EvExec "docker"
             ["run"; "-d"; "--name"; CchContainerName;
              "-p"; "127.0.0.1:40002:2003";
              "-v"; "/tmp/carbon-clickhouse:/etc/carbon-clickhouse";
              "--link"; "clickhouse-gch-test";
              "lomik/carbon-clickhouse:v0.11.1"]
             "" None;
           EvExecuteTemplate "/tmp/carbon-clickhouse/carbon-clickhouse.conf"
             "carbon-clickhouse.conf.tpl"
             (mkParam "http://ch:8123" "127.0.0.1:40002") text None;
           EvOpenFile "/tmp/carbon-clickhouse/carbon-clickhouse.conf" None;
           EvParseFiles "carbon-clickhouse.conf.tpl"
             "/tests/carbon-clickhouse.conf.tpl" None;
           EvFreePort "" "127.0.0.1:40002" None;
           EvTempDir "" "carbon-clickhouse" "/tmp/carbon-clickhouse" None;
           EvFreePort "" first None ].
Proof.
  destruct (Start_success_uses_second_address os_fine
              "/tests" "http://ch:8123" "clickhouse-gch-test" cch0 world0
              "" (res_inst started) (res_world started)
              (scripted_free_port_ok [] "") eq_refl)
    as (first & t & text & E & _ & _ & _ & K).
  split; [reflexivity|]. split; [exact K|].
  exists first, text. exact E.
Defined.

Lemma Cleanup_idempotent_and_silent_witness :
  (exists re : option error,
     events_since (res_world started)
       (snd (cleanups os_fine 3 (res_inst started) (res_world started)))
     = [EvRemoveAll "/tmp/carbon-clickhouse" re]
     /\ (re = None ->
         mem "/tmp/carbon-clickhouse"
           (dirs (snd (cleanups os_fine 3 (res_inst started)
                         (res_world started))))
         = false))
  /\ Cleanup os_fine cch0 world0 = (cch0, world0).
Proof.
  split.
  - apply (proj1 (proj2 (proj2 (proj2
             (Cleanup_idempotent_and_silent os_fine (res_inst started)
                (res_world started) 2))))).
    vm_compute. discriminate.
  - apply (proj1 (proj2 (proj2
             (Cleanup_idempotent_and_silent os_fine cch0 world0 0)))).
    reflexivity.
Defined.

Lemma Delete_tracked_container_witness :
  res_err (Delete os_next_exec_fails (res_inst started) (res_world started))
  = Some "exit status 125"
  /\ container (res_inst (Delete os_next_exec_fails (res_inst started)
                            (res_world started)))
     = CchContainerName
  /\ storeDir (res_inst (Delete os_next_exec_fails (res_inst started)
                           (res_world started)))
     = ""
  /\ container (res_inst (Delete os_fine (res_inst started)
                            (res_world started)))
     = "".
Proof.
  assert (N : container (res_inst started) <> "")
    by (vm_compute; discriminate).
  destruct (Delete_tracked_container os_next_exec_fails (res_inst started)
              (res_world started) N) as (D & K & S).
  destruct (Delete_tracked_container os_fine (res_inst started)
              (res_world started) N) as (_ & K' & _).
  split; [rewrite D; reflexivity|].
  split; [exact K|]. split; [exact S|exact K'].
Defined.

Lemma Stop_tracked_container_witness :
  Stop os_fine true (res_inst started) (res_world started)
  = Delete os_fine (res_inst started)
      (log (EvExec "docker" ["stop"; CchContainerName] "" None)
           (res_world started))
  /\ Stop os_next_exec_fails true (res_inst started) (res_world started)
     = ((Some "exit status 125",
         "Error response from daemon: No such container"),
        res_inst started,
        log (EvExec "docker" ["stop"; CchContainerName]
               "Error response from daemon: No such container"
               (Some "exit status 125"))
            (res_world started)).
Proof.
  assert (N : container (res_inst started) <> "")
    by (vm_compute; discriminate).
  split.
  - apply (proj1 (Stop_tracked_container os_fine (res_inst started)
                    (res_world started) N)).
    reflexivity.
  - apply (proj2 (Stop_tracked_container os_next_exec_fails
                    (res_inst started) (res_world started) N)).
    vm_compute. discriminate.
Defined.

Lemma Stop_Delete_never_started_witness :
  Stop os_fine true cch0 world0 = ((None, ""), cch0, world0)
  /\ Delete os_fine cch0 world0 = ((None, ""), cch0, world0).
Proof.
  destruct (Stop_Delete_never_started os_fine
              "v0.11.1" "" "" "carbon-clickhouse.conf.tpl" ""
              [OpCleanup; OpStop false; OpDelete] world0 cch0 world0 true
              eq_refl eq_refl) as (_ & _ & S & D & _).
  split; [exact S|exact D].
Defined.

(** C1 as stated fails: a [Start] on an instance fresh from its
    configuration fails at the launch of the container, and [Container]
    returns the fixed name afterwards. *)
Lemma Start_failed_launch_leaves_container_named :
  let res := start0 os_launch_conflict cch0 world0 in
  Container cch0 = ""
  /\ existsb launch_failure (events_since world0 (res_world res)) = true
  /\ res_err res = Some "exit status 125"
  /\ Container (res_inst res) = "carbon-clickhouse-gch-test"
  /\ Container (res_inst res) <> "".
Proof. vm_compute. repeat split; try reflexivity. discriminate. Qed.

Lemma Container_empty_iff_not_named_witness :
  Container (fst (run os_fine
                    [OpStart "/tests" "http://ch:8123" "clickhouse-gch-test";
                     OpStop true] cch0 world0))
  = ""
  /\ Container (fst (run os_launch_conflict
                       [OpStart "/tests" "http://ch:8123" "clickhouse-gch-test"]
                       cch0 world0))
     = CchContainerName.
Proof.
  split.
  - apply (proj1 (Container_empty_iff_not_named os_fine
                    "v0.11.1" "" "" "carbon-clickhouse.conf.tpl" ""
                    [OpStart "/tests" "http://ch:8123" "clickhouse-gch-test";
                     OpStop true] world0
                    (fst (run os_fine
                            [OpStart "/tests" "http://ch:8123"
                                     "clickhouse-gch-test";
                             OpStop true] cch0 world0))
                    (snd (run os_fine
                            [OpStart "/tests" "http://ch:8123"
                                     "clickhouse-gch-test";
                             OpStop true] cch0 world0))
                    eq_refl)).
    vm_compute. reflexivity.
  - apply (proj2 (Container_empty_iff_not_named os_launch_conflict
                    "v0.11.1" "" "" "carbon-clickhouse.conf.tpl" ""
                    [OpStart "/tests" "http://ch:8123" "clickhouse-gch-test"]
                    world0
                    (fst (run os_launch_conflict
                            [OpStart "/tests" "http://ch:8123"
                                     "clickhouse-gch-test"] cch0 world0))
                    (snd (run os_launch_conflict
                            [OpStart "/tests" "http://ch:8123"
                                     "clickhouse-gch-test"] cch0 world0))
                    eq_refl)).
    vm_compute. discriminate.
Defined.

(** C10 as stated fails: a second [Start] whose first port allocation
    fails keeps tracking the scratch directory of the first, and a
    [Cleanup] afterwards removes that directory. *)
Lemma Start_again_may_keep_scratch :
  let res := start0 os_next_port_fails (res_inst started) (res_world started) in
  storeDir (res_inst started) = "/tmp/carbon-clickhouse"
  /\ mem "/tmp/carbon-clickhouse" (dirs (res_world started)) = true
  /\ res_err res = Some "listen tcp 127.0.0.1:0: bind: no ports"
  /\ storeDir (res_inst res) = "/tmp/carbon-clickhouse"
  /\ mem "/tmp/carbon-clickhouse"
       (dirs (snd (Cleanup os_next_port_fails (res_inst res) (res_world res))))
     = false.
Proof. vm_compute. repeat split; reflexivity. Qed.

Lemma Start_again_orphans_scratch_witness :
  let res := start0 os_fine (res_inst started) (res_world started) in
  storeDir (res_inst res) <> "/tmp/carbon-clickhouse"
  /\ mem "/tmp/carbon-clickhouse"
       (dirs (snd (run os_fine [OpStop true; OpCleanup]
                     (res_inst res) (res_world res))))
     = true.
Proof.
  cbv zeta.
  destruct (Start_again_orphans_scratch os_fine
              "/tests" "http://ch:8123" "clickhouse-gch-test"
              (res_inst started) (res_world started)
              (fst (fst (start0 os_fine (res_inst started) (res_world started))))
              (res_inst (start0 os_fine (res_inst started) (res_world started)))
              (res_world (start0 os_fine (res_inst started) (res_world started))))
    as (N & _ & _ & K).
  - apply scripted_temp_dir_ok.
  - vm_compute. discriminate.
  - vm_compute. reflexivity.
  - vm_compute. reflexivity.
  - vm_compute. reflexivity.
  - split; [exact N|].
    apply (K [OpStop true; OpCleanup]
             (fst (run os_fine [OpStop true; OpCleanup]
                     (res_inst (start0 os_fine (res_inst started)
                                  (res_world started)))
                     (res_world (start0 os_fine (res_inst started)
                                   (res_world started)))))
             (snd (run os_fine [OpStop true; OpCleanup]
                     (res_inst (start0 os_fine (res_inst started)
                                  (res_world started)))
                     (res_world (start0 os_fine (res_inst started)
                                   (res_world started)))))).
    vm_compute. reflexivity.
Defined.

(** * Further properties of the fixture *)

Lemma Docker_defaults (c : CarbonClickhouse) :
  Docker (defaults c) <> "" /\ DockerImage (defaults c) <> "".
Proof.
  unfold defaults. destruct c as [v d i t z a k s]; simpl.
  destruct d, i; simpl; split; discriminate.
Qed.

Lemma config_defaults (c : CarbonClickhouse) :
  Version (defaults c) = Version c
  /\ Template (defaults c) = Template c
  /\ TZ (defaults c) = TZ c
  /\ address (defaults c) = address c.
Proof.
  unfold defaults. destruct c as [v d i t z a k s]; simpl.
  destruct d, i; simpl; repeat split; reflexivity.
Qed.

(** X1.  A [Start] whose first port allocation fails returns the error of
    the allocator with empty output after one external call.  It has by
    then applied the defaults and overwritten the address with the string
    the allocator returned; the tracked container and the tracked scratch
    directory are as before. *)
Theorem Start_first_allocation_fails
  (os : OS) (testDir url link : string) (c : CarbonClickhouse) (w : World)
  (a : string) (e : error) :
  Version c <> "" ->
  os_free_port os "" w = (a, Some e) ->
  Start os testDir url link c w
  = ((Some e, ""), set_address a (defaults c), log (EvFreePort "" a (Some e)) w)
  /\ Address (res_inst (Start os testDir url link c w)) = a
  /\ Container (res_inst (Start os testDir url link c w)) = Container c
  /\ storeDir (res_inst (Start os testDir url link c w)) = storeDir c.
Proof.
  intros V P.
  assert (S : Start os testDir url link c w
              = ((Some e, ""), set_address a (defaults c),
                 log (EvFreePort "" a (Some e)) w)).
  { unfold Start, getFreeTCPPort.
    rewrite (proj2 (length_nonzero_nonempty _) V), P. reflexivity. }
  split; [exact S|]. rewrite S. unfold res_inst, Address, Container. simpl.
  split; [reflexivity|]. split.
  - apply container_defaults.
  - apply storeDir_defaults.
Qed.

(** X2.  [Start] creates at most one directory, and never leaves the one
    it created both on disk and untracked without having asked for its
    removal: either [Start] reached the launch, and the directory is the
    tracked scratch directory, or the last external call of [Start] is
    [os.RemoveAll] on it and [Start] returns an error. *)
Theorem Start_accounts_for_created_directory
  (os : OS) (testDir url link : string) (c : CarbonClickhouse) (w : World)
  (r : option error * string) (c' : CarbonClickhouse) (w' : World) :
  temp_dir_ok os ->
  Start os testDir url link c w = (r, c', w') ->
  created_dirs (events_since w w') = []
  \/ exists d : string,
       created_dirs (events_since w w') = [d]
       /\ ((storeDir c' = d
            /\ existsb is_exec (events_since w w') = true
            /\ existsb is_remove (events_since w w') = false)
           \/ (storeDir c' = ""
               /\ fst r <> None
               /\ existsb is_exec (events_since w w') = false
               /\ exists re, hd_error (events_since w w') = Some (EvRemoveAll d re))).
Proof.
  intros Fresh H. unfold_calls.
  split_answers; inversion H; subst; clear H; read_log; simpl in *;
    try (left; reflexivity);
    try match goal with
        | E : os_temp_dir _ _ _ _ = inr ?d |- _ =>
            destruct (Fresh _ _ _ _ E) as [Ne _];
            try (rewrite (eqb_empty_false _ Ne) in *; discriminate)
        end.
  all: right; eexists; split; [reflexivity|].
  all: try (left; repeat split; reflexivity).
  all: right; repeat split; try discriminate; eexists; reflexivity.
Qed.

(** As [read_log], between two worlds that are both spelled out. *)
Ltac read_log_between :=
  repeat match goal with
         | |- context [events_since ?w ?w'] =>
             let base := eval cbn [trace log with_dirs with_files fst snd]
                         in (trace w) in
             let tr := eval cbn [trace log with_dirs with_files fst snd]
                       in (trace w') in
             let evs := reify_events tr base in
             rewrite (events_since_app w w' evs eq_refl)
         end.

Lemma remove_dir_fresh (d : string) (ds : list string) :
  mem d ds = false -> remove_dir d (d :: ds) = ds.
Proof.
  unfold mem, remove_dir. simpl. rewrite String.eqb_refl. simpl.
  induction ds as [|x ds IH]; simpl; intros M; [reflexivity|].
  apply orb_false_elim in M. destruct M as [M1 M2].
  rewrite M1. simpl. rewrite (IH M2). reflexivity.
Qed.

(** X3.  A [Start] that returns no error followed by a [Stop] asked to
    delete that returns no error brings the instance back: no container and
    no scratch directory are tracked.  The [Stop] made three external
    calls, [stop] and [rm] of the fixed container and [os.RemoveAll] of the
    directory the [Start] created; when that removal reported no error the
    directories on disk are those from before the [Start].  A further
    [Stop] does nothing. *)
Theorem Start_then_Stop_delete_round_trip
  (os : OS) (testDir url link : string) (c : CarbonClickhouse) (w : World)
  (out : string) (c' : CarbonClickhouse) (w' : World)
  (out' : string) (c'' : CarbonClickhouse) (w'' : World) :
  temp_dir_ok os ->
  Start os testDir url link c w = ((None, out), c', w') ->
  Stop os true c' w' = ((None, out'), c'', w'') ->
  Container c'' = ""
  /\ storeDir c'' = ""
  /\ (exists (o1 : string) (re : option error),
        events_since w' w''
        = [ EvRemoveAll (storeDir c') re;
            EvExec (Docker c') ["rm"; CchContainerName] out' None;
            EvExec (Docker c') ["stop"; CchContainerName] o1 None ]
        /\ created_dirs (events_since w w') = [storeDir c']
        /\ (re = None -> dirs w'' = dirs w))
  /\ Stop os true c'' w'' = ((None, ""), c'', w'').
Proof.
  intros Fresh H1. unfold Container.
  unfold Start, getFreeTCPPort, ioutil_TempDir, template_ParseFiles,
    os_OpenFile, ExecuteTemplate, CombinedOutput, Cleanup, os_RemoveAll in H1.
  split_answers; inversion H1; subst; clear H1.
  all: match goal with
       | E : os_temp_dir _ _ _ _ = inr ?d |- _ =>
           destruct (Fresh _ _ _ _ E) as [Ne Nm]; simpl in Nm
       end.
  all: intros H2;
    unfold Stop, Delete, CombinedOutput, Cleanup, os_RemoveAll in H2;
    simpl in H2.
  all: split_answers; inversion H2; subst; clear H2; read_log_between;
    simpl in *.
  all: try match goal with
           | E : context [String.eqb ?d ""] |- _ =>
               rewrite (eqb_empty_false d Ne) in E; discriminate
           end.
  all: repeat split; try reflexivity.
  all: eexists _, _; repeat split; try reflexivity; intros;
    try discriminate; apply remove_dir_fresh; assumption.
Qed.

Lemma defaults_keep_set (c : CarbonClickhouse) :
  (Docker c <> "" -> Docker (defaults c) = Docker c)
  /\ (DockerImage c <> "" -> DockerImage (defaults c) = DockerImage c).
Proof.
  unfold defaults. destruct c as [v d i t z a k s]; simpl.
  destruct d, i; simpl; split; intros N; try reflexivity; congruence.
Qed.

Lemma step_keeps_configuration (os : OS) (op : Op) (c : CarbonClickhouse)
  (w : World) (r : option error * string) (c' : CarbonClickhouse) (w' : World) :
  step os op c w = (r, c', w') ->
  Version c' = Version c /\ Template c' = Template c /\ TZ c' = TZ c
  /\ (Docker c <> "" -> Docker c' = Docker c)
  /\ (DockerImage c <> "" -> DockerImage c' = DockerImage c).
Proof.
  intros H.
  destruct (config_defaults c) as (V & T & Z & _).
  destruct (defaults_keep_set c) as (D & I).
  destruct op as [t u l|del| |]; simpl in H; unfold_calls;
    split_answers; inversion H; subst; clear H; simpl;
    repeat split; auto.
Qed.

(** X4.  No sequence of calls changes the version, the template or the
    time zone of the instance, and a runtime binary or an image name that
    is set is never changed either: [Start] only fills them in when they
    are empty. *)
Theorem run_keeps_configuration (os : OS) (ops : list Op) :
  forall (c : CarbonClickhouse) (w : World) (c' : CarbonClickhouse)
         (w' : World),
    run os ops c w = (c', w') ->
    Version c' = Version c /\ Template c' = Template c /\ TZ c' = TZ c
    /\ (Docker c <> "" -> Docker c' = Docker c)
    /\ (DockerImage c <> "" -> DockerImage c' = DockerImage c).
Proof.
  induction ops as [|op ops IH]; intros c w c' w' R; simpl in R.
  - inversion R; subst. repeat split; reflexivity.
  - destruct (step os op c w) as [[r c1] w1] eqn:S.
    destruct (step_keeps_configuration os op c w r c1 w1 S)
      as (V & T & Z & D & I).
    destruct (IH c1 w1 c' w' R) as (V' & T' & Z' & D' & I').
    repeat split; try congruence.
    + intros N. rewrite <- (D N). apply D'. rewrite (D N). exact N.
    + intros N. rewrite <- (I N). apply I'. rewrite (I N). exact N.
Qed.

Lemma extends_intro (P : Event -> bool) (w w' : World) (evs : list Event) :
  trace w' = (evs ++ trace w)%list -> forallb P evs = true -> extends P w w'.
Proof. intros T F. exists evs. split; assumption. Qed.

Lemma extends_trans (P : Event -> bool) (w w1 w2 : World) :
  extends P w w1 -> extends P w1 w2 -> extends P w w2.
Proof.
  intros (e1 & T1 & F1) (e2 & T2 & F2). exists (e2 ++ e1)%list. split.
  - rewrite T2, T1. apply app_assoc.
  - rewrite forallb_app, F1, F2. reflexivity.
Qed.

Lemma extends_events_since (P : Event -> bool) (w w' : World) :
  extends P w w' -> forallb P (events_since w w') = true.
Proof. intros (evs & T & F). rewrite (events_since_app w w' evs T). exact F. Qed.

Ltac extends_log :=
  match goal with
  | |- extends ?P ?w ?w' =>
      let tr := eval cbn [trace log with_dirs with_files fst snd] in (trace w') in
      let evs := reify_events tr (trace w) in
      apply (extends_intro P w w' evs eq_refl)
  end.

Lemma step_execs (os : OS) (op : Op) (c : CarbonClickhouse)
  (w : World) (r : option error * string) (c' : CarbonClickhouse) (w' : World) :
  binary_set c ->
  step os op c w = (r, c', w') ->
  binary_set c' /\ extends exec_ok w w'.
Proof.
  intros B H.
  destruct (Docker_defaults c) as [Dd _].
  pose proof (eqb_empty_false _ Dd) as Dd'.
  pose proof (container_defaults c) as Cd.
  destruct B as [B|[B D]].
  - (* not named *)
    destruct op as [t u l|del| |]; simpl in H; unfold_calls;
      try rewrite B in H; simpl in H;
      split_answers; inversion H; subst; clear H;
      (split; [|extends_log; simpl; rewrite ?Dd'; reflexivity]);
      unfold binary_set; simpl; rewrite ?Cd; auto.
  - (* named *)
    pose proof (eqb_empty_false _ D) as D'.
    assert (Dk : Docker (defaults c) = Docker c)
      by (apply defaults_keep_set; exact D).
    destruct op as [t u l|del| |]; simpl in H; unfold_calls;
      try rewrite B in H; simpl in H;
      split_answers; inversion H; subst; clear H;
      (split; [|extends_log; simpl; rewrite ?Dd', ?D'; reflexivity]);
      unfold binary_set; simpl; rewrite ?Cd, ?Dk; auto.
Qed.

Lemma run_execs (os : OS) (ops : list Op) :
  forall (c : CarbonClickhouse) (w : World) (c' : CarbonClickhouse)
         (w' : World),
    binary_set c ->
    run os ops c w = (c', w') ->
    binary_set c' /\ extends exec_ok w w'.
Proof.
  induction ops as [|op ops IH]; intros c w c' w' B R; simpl in R.
  - inversion R; subst. split; [exact B|]. exists []. split; reflexivity.
  - destruct (step os op c w) as [[r c1] w1] eqn:S.
    destruct (step_execs os op c w r c1 w1 B S) as [B1 E1].
    destruct (IH c1 w1 c' w' B1 R) as [B2 E2].
    split; [exact B2|]. apply (extends_trans exec_ok w w1 w' E1 E2).
Qed.

(** X5.  Whatever calls are made on an instance that came from its
    configuration, every subprocess it runs has a non-empty binary name and
    is one of [run -d --name <fixed name> ...], [stop <fixed name>] and
    [rm <fixed name>]; when a container is tracked, the runtime binary is
    set. *)
Theorem run_subprocesses_well_formed
  (os : OS) (version docker image template tz : string) (ops : list Op)
  (w : World) (c' : CarbonClickhouse) (w' : World) :
  run os ops (configured version docker image template tz) w = (c', w') ->
  forallb exec_ok (events_since w w') = true
  /\ (Container c' <> "" -> Docker c' <> "").
Proof.
  intros R.
  destruct (run_execs os ops (configured version docker image template tz)
              w c' w' (or_introl eq_refl) R) as [B E].
  split; [apply extends_events_since; exact E|].
  unfold Container. destruct B as [B|[_ D]]; [congruence|intros _; exact D].
Qed.

Lemma step_untracked (os : OS) (op : Op) (c : CarbonClickhouse)
  (w : World) (r : option error * string) (c' : CarbonClickhouse) (w' : World) :
  is_start op = false ->
  storeDir c = "" ->
  step os op c w = (r, c', w') ->
  storeDir c' = "" /\ dirs w' = dirs w /\ files w' = files w
  /\ extends not_remove w w'.
Proof.
  intros N S H.
  destruct op as [t u l|del| |]; simpl in N; try discriminate;
    simpl in H; unfold_calls; simpl in H; rewrite ?S in H; simpl in H;
    split_answers; inversion H; subst; clear H; simpl in *;
    rewrite ?S in *; simpl in *; try discriminate;
    (repeat split; try assumption; try reflexivity);
    extends_log; reflexivity.
Qed.

(** X6.  While no scratch directory is tracked, [Stop], [Delete] and
    [Cleanup] in any number and order never touch the disk: the directories
    and files are as before, no [os.RemoveAll] is called, and still no
    scratch directory is tracked. *)
Theorem untracked_calls_leave_disk
  (os : OS) (ops : list Op) :
  forall (c : CarbonClickhouse) (w : World) (c' : CarbonClickhouse)
         (w' : World),
    forallb (fun op => negb (is_start op)) ops = true ->
    storeDir c = "" ->
    run os ops c w = (c', w') ->
    storeDir c' = "" /\ dirs w' = dirs w /\ files w' = files w
    /\ existsb is_remove (events_since w w') = false.
Proof.
  assert (G : forall c w c' w',
             forallb (fun op => negb (is_start op)) ops = true ->
             storeDir c = "" ->
             run os ops c w = (c', w') ->
             storeDir c' = "" /\ dirs w' = dirs w /\ files w' = files w
             /\ extends not_remove w w').
  { induction ops as [|op ops IH]; intros c w c' w' F S R; simpl in *.
    - inversion R; subst. repeat split; try assumption.
      exists []. split; reflexivity.
    - apply andb_prop in F. destruct F as [F1 F2].
      apply negb_true_iff in F1.
      destruct (step os op c w) as [[r c1] w1] eqn:St.
      destruct (step_untracked os op c w r c1 w1 F1 S St) as (S1 & D1 & L1 & E1).
      destruct (IH c1 w1 c' w' F2 S1 R) as (S2 & D2 & L2 & E2).
      repeat split; try congruence.
      apply (extends_trans not_remove w w1 w' E1 E2). }
  intros c w c' w' F S R.
  destruct (G c w c' w' F S R) as (S' & D & L & E).
  repeat split; try assumption.
  apply extends_events_since in E.
  destruct (existsb is_remove (events_since w w')) eqn:X; [|reflexivity].
  apply existsb_exists in X. destruct X as (e & I & X).
  rewrite forallb_forall in E. specialize (E e I).
  unfold not_remove in E. rewrite X in E. discriminate.
Qed.

(** * Properties of the Prometheus handler *)

Lemma length_append (a b : string) :
  String.length (a ++ b) = String.length a + String.length b.
Proof. induction a as [|x a IH]; simpl; [reflexivity|]. now rewrite IH. Qed.

Lemma drop_append (a b : string) : drop (String.length a) (a ++ b) = b.
Proof.
  induction a as [|x a IH]; simpl; [|exact IH].
  destruct b; reflexivity.
Qed.

Lemma HasSuffix_append (a b : string) : HasSuffix (a ++ b) b = true.
Proof.
  unfold HasSuffix. rewrite length_append.
  replace (String.length a + String.length b - String.length b)
    with (String.length a) by lia.
  rewrite drop_append, String.eqb_refl.
  rewrite (proj2 (Nat.leb_le _ _)) by lia. reflexivity.
Qed.

(** X7.  Every request whose path ends in [/read] is handed to [read] and
    to nothing else, whatever comes before: paths below [/api/v1] and below
    [/static/] that end in [/read] never reach the API router or the static
    files. *)
Theorem ServeHTTP_read_suffix_first (h : Web) (before : string) :
  ServeHTTP h (before ++ "/read") = [CallRead]
  /\ ServeHTTP h ("/api/v1" ++ before ++ "/read") = [CallRead]
  /\ ServeHTTP h ("/static/" ++ before ++ "/read") = [CallRead].
Proof.
  unfold ServeHTTP. repeat split.
  - rewrite HasSuffix_append. reflexivity.
  - replace ("/api/v1" ++ before ++ "/read")
      with (("/api/v1" ++ before) ++ "/read") by reflexivity.
    rewrite HasSuffix_append. reflexivity.
  - replace ("/static/" ++ before ++ "/read")
      with (("/static/" ++ before) ++ "/read") by reflexivity.
    rewrite HasSuffix_append. reflexivity.
Qed.



Lemma getTemplate_error_text (h : Web) (name : string) (e : error) :
  snd (getTemplate h name) = Some e -> fst (getTemplate h name) = "".
Proof.
  unfold getTemplate.
  destruct (appendf h "" "_base.html") as [t1 [e1|]]; simpl; [reflexivity|].
  destruct (appendf h t1 name) as [t2 [e2|]]; simpl; [reflexivity|].
  discriminate.
Qed.

(** X9.  When the template cannot be read, [executeTemplate] answers twice:
    it first sends the error of [getTemplate] with status 500 and then goes
    on to expand the empty text under the name of the page, and sends what
    that gives, a second error with status 500 or the expansion itself. *)
Theorem executeTemplate_unreadable_template
  (h : Web) (name : string) (data : option (web_data h)) (e : error) :
  snd (getTemplate h name) = Some e ->
  executeTemplate h name data
  = HttpError e 500
      :: match ExpandHTML h "" name data
                 (ExternalURL_Path h ++ "/consoles/index.html") with
         | inl e2 => [HttpError e2 500]
         | inr result => [WriteString result]
         end.
Proof.
  intros E. pose proof (getTemplate_error_text h name e E) as T.
  unfold executeTemplate, StatusInternalServerError.
  destruct (getTemplate h name) as [text err]. simpl in *. subst.
  destruct (ExpandHTML h "" name data _); reflexivity.
Qed.


(** ** The template functions *)

Lemma wrap64_small (z : Z) :
  (-9223372036854775808 <= z < 9223372036854775808)%Z -> wrap64 z = z.
Proof. intros R. unfold wrap64. rewrite Z.mod_small; lia. Qed.

Lemma since_value (h : Web) (t : web_time h) :
  (-9223372036854775808 <= time_Since h t < 9223372036854775808)%Z ->
  since h t = (Z.quot (time_Since h t) Millisecond * Millisecond)%Z.
Proof.
  intros R. unfold since, Millisecond in *.
  pose proof (Z.quot_rem' (time_Since h t) 1000000) as Q.
  assert (B : (0 <= time_Since h t ->
               0 <= Z.rem (time_Since h t) 1000000 < 1000000)%Z)
    by (intros; apply Z.rem_bound_pos; lia).
  assert (B' : (time_Since h t <= 0 ->
                -1000000 < Z.rem (time_Since h t) 1000000 <= 0)%Z)
    by (intros N; pose proof (Z.rem_bound_pos_neg (time_Since h t) 1000000);
        lia).
  rewrite (wrap64_small (Z.quot (time_Since h t) 1000000)) by lia.
  apply wrap64_small. lia.
Qed.

(** X11.  ["since"] cuts the elapsed time down to whole milliseconds,
    towards zero: the result is a multiple of a millisecond, lies between
    zero and the elapsed time, and differs from it by less than a
    millisecond.  No [int64] operation in it overflows. *)
Theorem since_truncates_to_milliseconds (h : Web) (t : web_time h) :
  (-9223372036854775808 <= time_Since h t < 9223372036854775808)%Z ->
  let d := time_Since h t in
  let r := since h t in
  (Z.rem r Millisecond = 0
   /\ Z.abs (d - r) < Millisecond
   /\ (0 <= d -> 0 <= r <= d)
   /\ (d <= 0 -> d <= r <= 0)
   /\ (Z.rem d Millisecond = 0 -> r = d))%Z.
Proof.
  intros R. cbv zeta. rewrite (since_value h t R). unfold Millisecond.
  pose proof (Z.quot_rem' (time_Since h t) 1000000) as Q.
  assert (B : (0 <= time_Since h t ->
               0 <= Z.rem (time_Since h t) 1000000 < 1000000)%Z)
    by (intros; apply Z.rem_bound_pos; lia).
  assert (B' : (time_Since h t <= 0 ->
                -1000000 < Z.rem (time_Since h t) 1000000 <= 0)%Z)
    by (intros N; pose proof (Z.rem_bound_pos_neg (time_Since h t) 1000000);
        lia).
  split; [apply Z.rem_mul; lia|].
  repeat split; intros; lia.
Qed.

Lemma numHealthy_loop_counts (pool : list TargetHealth) :
  forall alive : Z,
    (Z.of_nat (List.length pool) <= alive < 9223372036854775808)%Z ->
    numHealthy_loop pool alive
    = (alive - Z.of_nat (List.length pool) + Z.of_nat (count_good pool))%Z.
Proof.
  unfold count_good.
  induction pool as [|p pool IH]; intros alive R; simpl numHealthy_loop.
  - simpl. lia.
  - simpl List.length in *. simpl filter.
    assert (L : (Z.of_nat (List.length
                             (filter (fun q => String.eqb q scrape_HealthGood)
                                     pool))
                 <= Z.of_nat (List.length pool))%Z)
      by (apply inj_le, filter_length_le).
    destruct (String.eqb p scrape_HealthGood); simpl negb; cbv iota.
    + rewrite IH by lia. simpl List.length. lia.
    + rewrite wrap64_small by lia. rewrite IH by lia. lia.
Qed.

Lemma class_success (p : TargetHealth) :
  String.eqb (targetHealthToClass p) "success"
  = String.eqb p scrape_HealthGood.
Proof.
  unfold targetHealthToClass.
  destruct (String.eqb p scrape_HealthUnknown) eqn:U.
  - apply String.eqb_eq in U. subst p. reflexivity.
  - destruct (String.eqb p scrape_HealthGood); reflexivity.
Qed.

(** X12.  ["numHealthy"] is the number of targets of the pool whose health
    is good: counting down from the length of the pool for every other
    target gives that number, which lies between zero and the length of
    the pool, and no [int] operation in it overflows. *)
Theorem numHealthy_counts_good (pool : list TargetHealth) :
  (Z.of_nat (List.length pool) < 9223372036854775808)%Z ->
  (numHealthy pool = Z.of_nat (count_good pool)
   /\ 0 <= numHealthy pool <= Z.of_nat (List.length pool)
   /\ (numHealthy pool = Z.of_nat (List.length pool)
       <-> forall p, In p pool -> p = scrape_HealthGood))%Z.
Proof.
  intros R. unfold numHealthy.
  rewrite numHealthy_loop_counts by lia.
  replace (Z.of_nat (List.length pool) - Z.of_nat (List.length pool)
           + Z.of_nat (count_good pool))%Z
    with (Z.of_nat (count_good pool)) by lia.
  assert (L : count_good pool <= List.length pool)
    by apply filter_length_le.
  split; [reflexivity|]. split; [lia|].
  unfold count_good in *. split.
  - intros E p I. apply Nat2Z.inj in E.
    assert (A : forallb (fun q => String.eqb q scrape_HealthGood) pool = true)
      by (apply filter_length_forallb; exact E).
    rewrite forallb_forall in A. apply String.eqb_eq, A, I.
  - intros A. f_equal. rewrite forallb_filter_id; [reflexivity|].
    apply forallb_forall. intros p I. apply String.eqb_eq, A, I.
Qed.

(** X13.  ["numHealthy"] and ["targetHealthToClass"] agree: the number
    ["numHealthy"] gives for a pool is the number of its targets that
    ["targetHealthToClass"] shows with the class [success]. *)
Theorem numHealthy_counts_success_class (pool : list TargetHealth) :
  (Z.of_nat (List.length pool) < 9223372036854775808)%Z ->
  numHealthy pool = Z.of_nat (count_success pool).
Proof.
  intros R. unfold numHealthy.
  rewrite numHealthy_loop_counts by lia.
  assert (E : count_success pool = count_good pool)
    by (unfold count_success, count_good; f_equal;
        apply filter_ext, class_success).
  rewrite E. lia.
Qed.

(** ** Further runs on concrete inputs *)

Lemma Start_first_allocation_fails_witness :
  Address (res_inst (start0 os_next_port_fails (res_inst started)
                            (res_world started)))
  = "127.0.0.1:0"
  /\ Container (res_inst (start0 os_next_port_fails (res_inst started)
                                 (res_world started)))
     = CchContainerName.
Proof.
  assert (V : Version (res_inst started) <> "")
    by (vm_compute; discriminate).
  destruct (Start_first_allocation_fails os_next_port_fails
              "/tests" "http://ch:8123" "clickhouse-gch-test"
              (res_inst started) (res_world started)
              "127.0.0.1:0" "listen tcp 127.0.0.1:0: bind: no ports"
              V eq_refl) as (_ & A & K & _).
  split; [exact A|exact K].
Defined.

Lemma Start_accounts_for_created_directory_witness :
  let res := start0 os_render_fails cch0 world0 in
  created_dirs (events_since world0 (res_world res)) = []
  \/ exists d : string,
       created_dirs (events_since world0 (res_world res)) = [d]
       /\ ((storeDir (res_inst res) = d
            /\ existsb is_exec (events_since world0 (res_world res)) = true
            /\ existsb is_remove (events_since world0 (res_world res)) = false)
           \/ (storeDir (res_inst res) = ""
               /\ fst (fst (fst res)) <> None
               /\ existsb is_exec (events_since world0 (res_world res)) = false
               /\ exists re,
                    hd_error (events_since world0 (res_world res))
                    = Some (EvRemoveAll d re))).
Proof.
  cbv zeta.
  apply (Start_accounts_for_created_directory os_render_fails
           "/tests" "http://ch:8123" "clickhouse-gch-test" cch0 world0
           (fst (fst (start0 os_render_fails cch0 world0)))).
  - apply scripted_temp_dir_ok.
  - vm_compute. reflexivity.
Defined.

Lemma Start_then_Stop_delete_round_trip_witness :
  let res := start0 os_removal_fails cch0 world0 in
  let res' := Stop os_removal_fails true (res_inst res) (res_world res) in
  Container (res_inst res') = ""
  /\ storeDir (res_inst res') = ""
  /\ Stop os_removal_fails true (res_inst res') (res_world res')
     = ((None, ""), res_inst res', res_world res').
Proof.
  cbv zeta.
  destruct (Start_then_Stop_delete_round_trip os_removal_fails
              "/tests" "http://ch:8123" "clickhouse-gch-test" cch0 world0
              "" (res_inst (start0 os_removal_fails cch0 world0))
              (res_world (start0 os_removal_fails cch0 world0))
              ""
              (res_inst (Stop os_removal_fails true
                           (res_inst (start0 os_removal_fails cch0 world0))
                           (res_world (start0 os_removal_fails cch0 world0))))
              (res_world (Stop os_removal_fails true
                            (res_inst (start0 os_removal_fails cch0 world0))
                            (res_world (start0 os_removal_fails cch0 world0))))
              (scripted_temp_dir_ok _ _) eq_refl eq_refl)
    as (K & S & _ & N).
  split; [exact K|]. split; [exact S|exact N].
Defined.

Lemma run_keeps_configuration_witness :
  let ops := [OpStart "/tests" "http://ch:8123" "clickhouse-gch-test";
              OpStop true;
              OpStart "/tests" "http://ch:8123" "clickhouse-gch-test"] in
  Version (fst (run os_launch_conflict ops cch0 world0)) = "v0.11.1"
  /\ Docker (fst (run os_fine ops (res_inst started) (res_world started)))
     = "docker".
Proof.
  cbv zeta. split.
  - destruct (run_keeps_configuration os_launch_conflict
                [OpStart "/tests" "http://ch:8123" "clickhouse-gch-test";
                 OpStop true;
                 OpStart "/tests" "http://ch:8123" "clickhouse-gch-test"]
                cch0 world0
                (fst (run os_launch_conflict
                        [OpStart "/tests" "http://ch:8123" "clickhouse-gch-test";
                         OpStop true;
                         OpStart "/tests" "http://ch:8123" "clickhouse-gch-test"]
                        cch0 world0))
                (snd (run os_launch_conflict
                        [OpStart "/tests" "http://ch:8123" "clickhouse-gch-test";
                         OpStop true;
                         OpStart "/tests" "http://ch:8123" "clickhouse-gch-test"]
                        cch0 world0)))
      as (V & _).
    + vm_compute. reflexivity.
    + exact V.
  - destruct (run_keeps_configuration os_fine
                [OpStart "/tests" "http://ch:8123" "clickhouse-gch-test";
                 OpStop true;
                 OpStart "/tests" "http://ch:8123" "clickhouse-gch-test"]
                (res_inst started) (res_world started)
                (fst (run os_fine
                        [OpStart "/tests" "http://ch:8123" "clickhouse-gch-test";
                         OpStop true;
                         OpStart "/tests" "http://ch:8123" "clickhouse-gch-test"]
                        (res_inst started) (res_world started)))
                (snd (run os_fine
                        [OpStart "/tests" "http://ch:8123" "clickhouse-gch-test";
                         OpStop true;
                         OpStart "/tests" "http://ch:8123" "clickhouse-gch-test"]
                        (res_inst started) (res_world started))))
      as (_ & _ & _ & D & _).
    + vm_compute. reflexivity.
    + apply D. vm_compute. discriminate.
Defined.

Lemma run_subprocesses_well_formed_witness :
  let ops := [OpStop true;
              OpStart "/tests" "http://ch:8123" "clickhouse-gch-test";
              OpStop false; OpDelete] in
  forallb exec_ok
    (events_since world0 (snd (run os_next_exec_fails ops cch0 world0)))
  = true.
Proof.
  cbv zeta.
  apply (run_subprocesses_well_formed os_next_exec_fails
           "v0.11.1" "" "" "carbon-clickhouse.conf.tpl" ""
           [OpStop true;
            OpStart "/tests" "http://ch:8123" "clickhouse-gch-test";
            OpStop false; OpDelete]
           world0
           (fst (run os_next_exec_fails
                   [OpStop true;
                    OpStart "/tests" "http://ch:8123" "clickhouse-gch-test";
                    OpStop false; OpDelete] cch0 world0))).
  vm_compute. reflexivity.
Defined.

Lemma untracked_calls_leave_disk_witness :
  let after := Delete os_next_exec_fails (res_inst started) (res_world started) in
  let ops := [OpDelete; OpStop true; OpCleanup] in
  dirs (snd (run os_fine ops (res_inst after) (res_world after)))
  = dirs (res_world after)
  /\ existsb is_remove
       (events_since (res_world after)
          (snd (run os_fine ops (res_inst after) (res_world after))))
     = false.
Proof.
  cbv zeta.
  destruct (untracked_calls_leave_disk os_fine
              [OpDelete; OpStop true; OpCleanup]
              (res_inst (Delete os_next_exec_fails (res_inst started)
                           (res_world started)))
              (res_world (Delete os_next_exec_fails (res_inst started)
                            (res_world started)))
              (fst (run os_fine [OpDelete; OpStop true; OpCleanup]
                      (res_inst (Delete os_next_exec_fails (res_inst started)
                                   (res_world started)))
                      (res_world (Delete os_next_exec_fails (res_inst started)
                                    (res_world started)))))
              (snd (run os_fine [OpDelete; OpStop true; OpCleanup]
                      (res_inst (Delete os_next_exec_fails (res_inst started)
                                   (res_world started)))
                      (res_world (Delete os_next_exec_fails (res_inst started)
                                    (res_world started))))))
    as (_ & D & _ & R).
  - reflexivity.
  - vm_compute. reflexivity.
  - vm_compute. reflexivity.
  - split; [exact D|exact R].
Defined.


Lemma executeTemplate_unreadable_template_witness :
  executeTemplate web_no_base "graph.html" None
  = [ HttpError
        "error reading base template: open /templates/_base.html: file does not exist"
        500;
      WriteString "<html></html>" ].
Proof.
  apply (executeTemplate_unreadable_template web_no_base "graph.html" None).
  vm_compute. reflexivity.
Defined.


Lemma since_truncates_to_milliseconds_witness :
  since web0 0%Z = 1700000000123000000%Z
  /\ (Z.abs (time_Since web0 0 - since web0 0) < Millisecond)%Z.
Proof.
  assert (R : (-9223372036854775808 <= time_Since web0 0
               < 9223372036854775808)%Z) by (vm_compute; split; congruence).
  destruct (since_truncates_to_milliseconds web0 0%Z R) as (_ & A & _).
  split; [reflexivity|exact A].
Defined.

Lemma numHealthy_counts_good_witness :
  numHealthy ["up"; "down"; "unknown"; "up"; ""] = 2%Z.
Proof.
  assert (R : (Z.of_nat (List.length ["up"; "down"; "unknown"; "up"; ""])
               < 9223372036854775808)%Z) by (vm_compute; reflexivity).
  destruct (numHealthy_counts_good ["up"; "down"; "unknown"; "up"; ""] R)
    as (E & _).
  rewrite E. reflexivity.
Defined.

Lemma numHealthy_counts_success_class_witness :
  numHealthy ["down"; "up"; "unknown"]
  = Z.of_nat (count_success ["down"; "up"; "unknown"]).
Proof.
  apply numHealthy_counts_success_class. vm_compute. reflexivity.
Defined.
